(** * Economics bot: a shallow embedding of the simulation engine and of the
    balance-mutating commands, with the properties of its specification.

    Monetary amounts, rates and probabilities are Python floats in the source;
    they are modelled here as exact rationals [Q].  Python dicts used as
    configuration catalogs are association lists with string keys, looked up
    in insertion order; a missing key ([KeyError]) is [None]. *)

From Stdlib Require Import QArith Qminmax Qround ZArith String List Bool Lia Lqa.
Import ListNotations.

Open Scope string_scope.
Open Scope Q_scope.

(** ** Dictionary lookup (Python [d[k]] / [k in d]) *)

Fixpoint lookup {A : Type} (k : string) (d : list (string * A)) : option A :=
  match d with
  | [] => None
  | (k', v) :: d' => if String.eqb k k' then Some v else lookup k d'
  end.

(** Python's [x < y] on numbers. *)
Definition Qltb (x y : Q) : bool := negb (Qle_bool y x).

(** ** config.py: economic classes *)

Inductive EconomicClass := LOWER | MIDDLE | UPPER | ELITE | OLIGARCH.

(** A band [(min_wealth, max_wealth)]; [None] stands for [float('inf')]. *)
Definition band := (Q * option Q)%type.

Definition CLASS_THRESHOLDS : list (EconomicClass * band) := [
  (LOWER, (0, Some 10000));
  (MIDDLE, (10001, Some 50000));
  (UPPER, (50001, Some 200000));
  (ELITE, (200001, Some 1000000));
  (OLIGARCH, (1000001, None))
].

(** [min_wealth <= wealth <= max_wealth] *)
Definition in_band (wealth : Q) (b : band) : bool :=
  let '(min_wealth, max_wealth) := b in
  Qle_bool min_wealth wealth &&
  match max_wealth with Some m => Qle_bool wealth m | None => true end.

(** The [for] loop over [CLASS_THRESHOLDS.items()] returning the first match. *)
Fixpoint first_class (wealth : Q) (l : list (EconomicClass * band))
  : option EconomicClass :=
  match l with
  | [] => None
  | (c, b) :: l' => if in_band wealth b then Some c else first_class wealth l'
  end.

(** economic_engine.py, [calculate_economic_class]. *)
Definition calculate_economic_class (wealth : Q) : EconomicClass :=
  match first_class wealth CLASS_THRESHOLDS with
  | Some c => c
  | None => LOWER
  end.

(** The bands of [CLASS_THRESHOLDS] that contain [wealth]. *)
Definition bands_containing (wealth : Q) : list EconomicClass :=
  map fst (filter (fun cb => in_band wealth (snd cb)) CLASS_THRESHOLDS).

(** ** config.py: labour market and cycle phases *)

Record job_data := mk_job {
  base_salary : Q;
  skill_required : Z;
  demand_elasticity : Q;
  automation_risk : Q
}.

Definition JOBS : list (string * job_data) := [
  ("unemployed", mk_job 0 0 0 0);
  ("beggar", mk_job 200 0 (1 # 10) (1 # 20));
  ("street_cleaner", mk_job 500 0 (1 # 5) (3 # 5));
  ("dishwasher", mk_job 600 0 (3 # 10) (7 # 10));
  ("laborer", mk_job 800 0 (1 # 5) (7 # 10));
  ("garbage_collector", mk_job 900 0 (1 # 5) (1 # 2));
  ("janitor", mk_job 1200 1 (3 # 10) (3 # 5));
  ("delivery_driver", mk_job 1400 1 (1 # 2) (4 # 5));
  ("security_guard", mk_job 1500 1 (3 # 10) (2 # 5));
  ("cashier", mk_job 1600 1 (2 # 5) (7 # 10));
  ("waiter", mk_job 1700 2 (1 # 2) (1 # 2));
  ("warehouse_worker", mk_job 2000 2 (1 # 2) (1 # 2));
  ("factory_worker", mk_job 2200 2 (2 # 5) (4 # 5));
  ("receptionist", mk_job 2400 2 (2 # 5) (3 # 5));
  ("sales_associate", mk_job 2600 3 (3 # 5) (1 # 2));
  ("barista", mk_job 2300 2 (1 # 2) (3 # 5));
  ("cook", mk_job 2800 3 (2 # 5) (2 # 5));
  ("mechanic", mk_job 3200 4 (1 # 2) (3 # 10));
  ("electrician", mk_job 3400 4 (1 # 2) (3 # 10));
  ("plumber", mk_job 3300 4 (1 # 2) (1 # 5));
  ("technician", mk_job 3500 4 (3 # 5) (3 # 10));
  ("paramedic", mk_job 3600 5 (3 # 10) (1 # 5));
  ("teacher", mk_job 3800 5 (3 # 10) (1 # 5));
  ("police_officer", mk_job 4000 5 (3 # 10) (1 # 5));
  ("firefighter", mk_job 4100 5 (3 # 10) (1 # 10));
  ("nurse", mk_job 4200 5 (2 # 5) (1 # 5));
  ("accountant", mk_job 4500 6 (3 # 5) (1 # 2));
  ("software_developer", mk_job 5000 6 (4 # 5) (3 # 10));
  ("data_analyst", mk_job 4800 6 (7 # 10) (2 # 5));
  ("engineer", mk_job 5500 7 (7 # 10) (2 # 5));
  ("architect", mk_job 5600 7 (3 # 5) (3 # 10));
  ("manager", mk_job 6000 6 (1 # 2) (3 # 10));
  ("marketing_manager", mk_job 6200 7 (3 # 5) (2 # 5));
  ("pharmacist", mk_job 6500 8 (2 # 5) (3 # 10));
  ("dentist", mk_job 7000 8 (2 # 5) (1 # 5));
  ("lawyer", mk_job 7500 8 (1 # 2) (3 # 10));
  ("doctor", mk_job 8000 9 (2 # 5) (1 # 10));
  ("surgeon", mk_job 9000 10 (3 # 10) (1 # 10));
  ("pilot", mk_job 8500 9 (1 # 2) (2 # 5));
  ("investment_banker", mk_job 10000 9 (7 # 10) (3 # 10));
  ("executive", mk_job 12000 9 (4 # 5) (1 # 5));
  ("ceo", mk_job 15000 10 (9 # 10) (1 # 10));
  ("entrepreneur", mk_job 18000 8 (9 # 10) (1 # 10))
].

Definition CYCLE_PHASES : list string :=
  ["expansion"; "peak"; "recession"; "trough"; "recovery"]%string.

Definition CYCLE_DURATION_DAYS : Z := 28.

Record phase_modifier := mk_phase {
  gdp_growth : Q;
  pm_unemployment : Q;
  pm_inflation : Q
}.

Definition PHASE_MODIFIERS : list (string * phase_modifier) := [
  ("expansion", mk_phase (115 # 100) (85 # 100) (110 # 100));
  ("peak", mk_phase (105 # 100) (90 # 100) (115 # 100));
  ("recession", mk_phase (85 # 100) (130 # 100) (95 # 100));
  ("trough", mk_phase (80 # 100) (150 # 100) (90 # 100));
  ("recovery", mk_phase (110 # 100) (110 # 100) (102 # 100))
]%string.

(** ** Tenant snapshot (the fields of the server document the engine reads) *)

Record job_market_entry := mk_market {
  employed : Z;
  wage_multiplier : Q
}.

Record server_data := mk_server {
  job_market : list (string * job_market_entry);
  gdp : Q;
  min_wage : Q;
  cycle_phase : string;
  cycle_start : Z;  (** seconds *)
  settings_tax_rate : Q  (** [server["settings"]["tax_rate"]] *)
}.

(** database.py, [get_server]: the document created for a new tenant. *)
Definition default_server (now : Z) : server_data :=
  mk_server (map (fun jd => (fst jd, mk_market 0 1)) JOBS) 0 1500 "expansion" now (1 # 5).

(** economic_engine.py, [calculate_salary]. *)
Definition calculate_salary (job : string) (sd : server_data) (user_skill : Z)
    (economic_phase : string) : option Q :=
  if String.eqb job "unemployed" then Some 0 else
  match lookup job JOBS with
  | None => None
  | Some jd =>
    match lookup economic_phase PHASE_MODIFIERS with
    | None => None
    | Some pm =>
      let phase_modifier := gdp_growth pm in
      let jm := match lookup job (job_market sd) with
                | Some e => e
                | None => mk_market 1 1
                end in
      let employed_count := employed jm in
      let supply_modifier :=
        Qmin (1 + demand_elasticity jd * (1 / inject_Z (Z.max employed_count 1))) 2 in
      let skill_req := Z.max (skill_required jd) 1 in
      let skill_modifier :=
        Qmin (1 + (inject_Z user_skill / inject_Z skill_req) * (1 # 2)) (3 # 2) in
      let gdp_modifier := Qmin (1 + (gdp sd / 1000000) * (1 # 10)) 2 in
      let calculated_salary :=
        base_salary jd * phase_modifier * supply_modifier * skill_modifier * gdp_modifier in
      Some (Qmax calculated_salary (min_wage sd))
    end
  end.

(** ** config.py: crimes, investments, market items *)

Record crime_data := mk_crime {
  base_success : Q;
  min_steal : Q;
  max_steal : Q;
  jail_time_hours : Z;
  crime_skill_required : Z
}.

Record investment_data := mk_investment {
  min_amount : Q;
  annual_return : Q;
  risk : Q;
  liquidity : Q
}.

Record item_data := mk_item {
  item_base_price : Q;
  elasticity : Q;
  necessity : Q
}.

Definition CRIME_TYPES : list (string * crime_data) := [
  ("pickpocket", mk_crime (2 # 5) 100 500 2 0);
  ("robbery", mk_crime (1 # 4) 500 3000 6 3);
  ("heist", mk_crime (3 # 20) 5000 20000 24 7);
  ("embezzlement", mk_crime (1 # 5) 10000 50000 48 8);
  ("tax_evasion", mk_crime (7 # 20) 5000 30000 72 6)
].

Definition INVESTMENT_TYPES : list (string * investment_data) := [
  ("savings_account", mk_investment 100 (1 # 50) (1 # 100) 1);
  ("bonds", mk_investment 1000 (1 # 25) (1 # 20) (4 # 5));
  ("stocks", mk_investment 500 (2 # 25) (1 # 5) (9 # 10));
  ("real_estate", mk_investment 50000 (3 # 50) (1 # 10) (3 # 10));
  ("venture_capital", mk_investment 100000 (3 # 20) (2 # 5) (1 # 5));
  ("cryptocurrency", mk_investment 100 (1 # 5) (3 # 5) (19 # 20))
].

Definition BASE_ITEMS : list (string * item_data) := [
  ("bread", mk_item 5 (3 # 10) (9 # 10));
  ("water", mk_item 3 (1 # 5) 1);
  ("medicine", mk_item 50 (1 # 10) (4 # 5));
  ("phone", mk_item 500 (7 # 10) (2 # 5));
  ("laptop", mk_item 1200 (4 # 5) (3 # 10));
  ("car", mk_item 25000 (9 # 10) (1 # 2));
  ("house", mk_item 200000 (6 # 5) (9 # 10));
  ("luxury_watch", mk_item 5000 (3 # 2) 0);
  ("yacht", mk_item 1000000 2 0)
].

(** ** economic_engine.py: pricing *)

(** [calculate_item_price]; an item missing from [BASE_ITEMS] gets the
    default [{"elasticity": 0.5, "necessity": 0.5}] of [BASE_ITEMS.get]. *)
Definition calculate_item_price (item : string) (base_price inflation_rate : Q)
    (demand_factor : Q) : Q :=
  let item_data := match lookup item BASE_ITEMS with
                   | Some d => d
                   | None => mk_item 0 (1 # 2) (1 # 2)
                   end in
  let inflation_adjusted := base_price * (1 + inflation_rate) in
  let demand_adjustment := 1 + (demand_factor - 1) * elasticity item_data in
  let price_floor := base_price * necessity item_data * (1 # 2) in
  let final_price := inflation_adjusted * demand_adjustment in
  Qmax final_price price_floor.

(** ** economic_engine.py: the business cycle *)

Definition SECONDS_PER_DAY : Z := 86400.

(** [(datetime.utcnow() - cycle_start).days]: a [timedelta]'s [days] is the
    floor of its length in days (times are in seconds). *)
Definition days_between (start now : Z) : Z := Z.div (now - start) SECONDS_PER_DAY.

(** [int(days_elapsed / phase_duration) % len(CYCLE_PHASES)] with
    [phase_duration = CYCLE_DURATION_DAYS / len(CYCLE_PHASES)]: [int] truncates
    toward zero ([Z.quot]), Python's [%] by a positive number is [Z.modulo]. *)
Definition current_phase_index (days_elapsed : Z) : Z :=
  let n := Z.of_nat (length CYCLE_PHASES) in
  Z.modulo (Z.quot (days_elapsed * n) CYCLE_DURATION_DAYS) n.

(** [update_economic_cycle]; [rnd] is the value of [random.random()], in [[0, 1)].
    The result is the returned dict [{"cycle_phase", "phase_modifiers"}]. *)
Definition update_economic_cycle (sd : server_data) (now : Z) (rnd : Q)
  : option (string * phase_modifier) :=
  let days_elapsed := days_between (cycle_start sd) now in
  let new_phase := nth (Z.to_nat (current_phase_index days_elapsed)) CYCLE_PHASES "" in
  let new_phase :=
    if Qltb rnd (5 # 100) && String.eqb new_phase "expansion"
    then "recession" else new_phase in
  match lookup new_phase PHASE_MODIFIERS with
  | Some pm => Some (new_phase, pm)
  | None => None
  end.

(** bot.py, [update_server_economy]: the [$set] applied to the server
    document, restricted to the fields of [server_data]. *)
Definition set_server_economy (sd : server_data) (new_phase : string) (new_gdp : Q)
  : server_data :=
  mk_server (job_market sd) new_gdp (min_wage sd) new_phase (cycle_start sd)
    (settings_tax_rate sd).

(** The phase rule of the specification, for comparison with
    [update_economic_cycle]: [CYCLE_PHASES[floor(days / phaseDuration) mod 5]]
    with [phaseDuration = CYCLE_DURATION_DAYS / 5], then the shock that turns
    [expansion] into [recession] when [rnd < 0.05]. *)
Definition spec_cycle_phase (start now : Z) (rnd : Q) : string :=
  let days := days_between start now in
  let n := Z.of_nat (length CYCLE_PHASES) in
  let base := nth (Z.to_nat (Z.modulo (Z.div (days * n) CYCLE_DURATION_DAYS) n))
                CYCLE_PHASES "" in
  if Qltb rnd (5 # 100) && String.eqb base "expansion" then "recession" else base.

(** ** economic_engine.py: crime *)

Definition calculate_crime_success_rate (crime_type : string) (user_skill : Z)
    (inequality police_strength unemployment_rate : Q) : option Q :=
  match lookup crime_type CRIME_TYPES with
  | None => None
  | Some cd =>
    let skill_bonus := inject_Z (user_skill - crime_skill_required cd) * (5 # 100) in
    let inequality_bonus := Qmax 0 ((inequality - (45 # 100)) * (1 # 2)) in
    let unemployment_bonus := unemployment_rate * (3 # 10) in
    let police_penalty := police_strength * (2 # 10) in
    let success_rate := base_success cd + skill_bonus + inequality_bonus
                        + unemployment_bonus - police_penalty in
    Some (Qmax (5 # 100) (Qmin success_rate (95 # 100)))
  end.

(** The success probability in the specification's words, for comparison:
    the five terms summed, then clamped to [[0.05, 0.95]]. *)
Definition clamp (lo hi x : Q) : Q := Qmax lo (Qmin x hi).

Definition spec_crime_success_rate (base required_skill : Q) (actor_skill : Z)
    (gini police_strength unemployment_rate : Q) : Q :=
  clamp (5 # 100) (95 # 100)
    (base + (inject_Z actor_skill - required_skill) * (5 # 100)
     + Qmax 0 ((gini - (45 # 100)) * (1 # 2))
     + unemployment_rate * (3 # 10)
     - police_strength * (2 # 10)).

(** ** economic_engine.py: investments *)

(** [calculate_investment_return]; [gdp_growth_opt] is
    [market_conditions.get("gdp_growth")] and [random_shock] the value drawn by
    [random.gauss(0, volatility)], which can be any real number. *)
Definition calculate_investment_return (investment_type : string)
    (gdp_growth_opt : option Q) (holding_period_days : Z) (random_shock : Q)
  : option Q :=
  match lookup investment_type INVESTMENT_TYPES with
  | None => None
  | Some inv =>
    let time_factor := inject_Z holding_period_days / 365 in
    let expected_return := annual_return inv * time_factor in
    let g := match gdp_growth_opt with Some g => g | None => 1 end in
    let market_modifier := (g - (9 # 10)) * 2 in
    let total_return := expected_return + market_modifier + random_shock in
    if String.eqb investment_type "cryptocurrency" then
      Some (Qmax (-(9 # 10)) (Qmin total_return 5))
    else if String.eqb investment_type "venture_capital" then
      Some (Qmax (-(8 # 10)) (Qmin total_return 3))
    else
      Some (Qmax (-(5 # 10)) (Qmin total_return 1))
  end.

Record investment := mk_inv {
  inv_type : string;
  principal : Q;
  current_value : Q;
  last_update : Z
}.

(** database.py, [create_investment]. *)
Definition create_investment (investment_type : string) (amount : Q) (now : Z)
  : investment :=
  mk_inv investment_type amount amount now.

(** bot.py, [update_investment_value]: [None] when a lookup raises. *)
Definition update_investment_value (inv : investment) (sd : server_data) (now : Z)
    (random_shock : Q) : option investment :=
  let days_held := days_between (last_update inv) now in
  if Z.eqb days_held 0 then Some inv else
  match lookup (cycle_phase sd) PHASE_MODIFIERS with
  | None => None
  | Some pm =>
    match calculate_investment_return (inv_type inv) (Some (gdp_growth pm))
            days_held random_shock with
    | None => None
    | Some return_rate =>
      Some (mk_inv (inv_type inv) (principal inv)
              (current_value inv * (1 + return_rate)) now)
    end
  end.

(** ** Actors and the per-tenant statistics *)

(** The wealth fields of a user document: cash [balance] and [bank]. *)
Record user := mk_user {
  balance : Q;
  bank : Q
}.

(** [sorted]: insertion sort, ascending. *)
Fixpoint insert_q (x : Q) (l : list Q) : list Q :=
  match l with
  | [] => [x]
  | y :: l' => if Qle_bool x y then x :: l else y :: insert_q x l'
  end.

Fixpoint sort_q (l : list Q) : list Q :=
  match l with
  | [] => []
  | x :: l' => insert_q x (sort_q l')
  end.

Fixpoint sum_q (l : list Q) : Q :=
  match l with [] => 0 | x :: l' => x + sum_q l' end.

(** [sum((i + 1) * w for i, w in enumerate(wealth))], the index starting at [i]. *)
Fixpoint weighted_sum (i : Z) (l : list Q) : Q :=
  match l with
  | [] => 0
  | w :: l' => inject_Z (i + 1) * w + weighted_sum (i + 1) l'
  end.

(** database.py, [calculate_gini_coefficient]; [None] is the
    [ZeroDivisionError] raised when [n * sum(wealth)] is zero. *)
Definition calculate_gini_coefficient (users : list user) : option Q :=
  if Nat.ltb (length users) 2 then Some 0 else
  let wealth := sort_q (map (fun u => balance u + bank u) users) in
  let n := inject_Z (Z.of_nat (length wealth)) in
  let cumsum := weighted_sum 0 wealth in
  let denom := n * sum_q wealth in
  if Qeq_bool denom 0 then None
  else Some ((2 * cumsum) / denom - (n + 1) / n).

(** ** The periodic batch update (bot.py, [economic_update_loop]) *)

(** What one tenant's tick leaves in the store: either it ran to the end, or
    it raised an exception; the store carried by [Failed] is the one left by
    the writes the tick made before raising (for instance [update_server]
    done and [record_market_snapshot] raising). *)
Inductive tick_result (S : Type) : Type :=
| Ticked (st : S)
| Failed (st : S).

Arguments Ticked {S} st.
Arguments Failed {S} st.

Section BatchUpdate.

(** The store of all tenants' documents, and one tenant's tick
    ([update_server_economy]). *)
Variable store : Type.
Variable update_server_economy : Z -> store -> tick_result store.

Definition update_loop_error : string := "Error in economic update loop".

(** The [try] encloses the whole [async for]: the first exception ends the
    batch, is printed, and the documents written so far stay written. *)
Fixpoint economic_update_loop (guilds : list Z) (st : store)
  : store * list string :=
  match guilds with
  | [] => (st, [])
  | g :: gs =>
    match update_server_economy g st with
    | Failed st' => (st', [update_loop_error])
    | Ticked st' => economic_update_loop gs st'
    end
  end.

(** Running the ticks of a list of tenants, all of which succeed. *)
Fixpoint run_ticks (guilds : list Z) (st : store) : option store :=
  match guilds with
  | [] => Some st
  | g :: gs =>
    match update_server_economy g st with
    | Failed _ => None
    | Ticked st' => run_ticks gs st'
    end
  end.

End BatchUpdate.

(** ** Commands that move money (bot.py, bot_commands.py, bot_commands2.py) *)

(** What a command does: it answers with an error message and writes nothing,
    it raises before writing anything, or it writes the new documents. *)
Inductive outcome (A : Type) : Type :=
| Rejected (msg : string)
| Raised
| Applied (a : A).

Arguments Rejected {A} msg.
Arguments Raised {A}.
Arguments Applied {A} a.

















(** bot_commands.py, [/invest]. *)
Definition invest (u : user) (investment_type : string) (amount : Q) (now : Z)
  : outcome (user * investment) :=
  match lookup investment_type INVESTMENT_TYPES with
  | None => Rejected "Invalid investment type!"
  | Some inv_data =>
    if Qltb amount (min_amount inv_data) then Rejected "Minimum investment" else
    if Qltb (balance u) amount then Rejected "Insufficient funds!" else
    Applied (mk_user (balance u - amount) (bank u),
             create_investment investment_type amount now)
  end.

(** [/sell]: [current_quantity] is [user["inventory"].get(item, 0)] and
    [market_price] is [server["market_prices"].get(item, 0)]. *)
Definition sell (u : user) (current_quantity : Z) (market_price : Q) (quantity : Z)
  : outcome user :=
  if Z.ltb current_quantity quantity
  then Rejected "You don't have enough of this item!" else
  let sell_price := market_price * (7 # 10) in
  let total_earnings := sell_price * inject_Z quantity in
  Applied (mk_user (balance u + total_earnings) (bank u)).

(** ** Loans (database.py, bot_commands.py [/repay], bot.py [handle_loan_default]) *)

Record loan := mk_loan {
  loan_id : nat;  (** the document's [_id] *)
  loan_principal : Q;
  interest_rate : Q;
  remaining : Q;
  due_date : Z;
  defaulted : bool
}.

Definition set_remaining (l : loan) (r : Q) : loan :=
  mk_loan (loan_id l) (loan_principal l) (interest_rate l) r (due_date l) (defaulted l).

(** database.py, [get_active_loans]: [remaining > 0] and not [defaulted]. *)
Definition is_active (l : loan) : bool :=
  Qltb 0 (remaining l) && negb (defaulted l).

Definition get_active_loans (ls : list loan) : list loan := filter is_active ls.





(** bot.py, [handle_loan_default]. *)
Definition handle_loan_default (u : user) (l : loan) : user * loan :=
  let total_assets := balance u + bank u in
  let seized := Qmin total_assets (remaining l) in
  let remaining_balance := total_assets - seized in
  (mk_user remaining_balance 0,
   mk_loan (loan_id l) (loan_principal l) (interest_rate l)
     (Qmax 0 (remaining l - seized)) (due_date l) true).


(** database.py, [get_user]: a new user's wealth. *)
Definition new_user : user := mk_user 1000 0.

(** ** economic_engine.py: macro indicators *)

(** config.py *)
Definition INFLATION_SENSITIVITY : Q := 5 # 100.
Definition STRIKE_PROBABILITY_BASE : Q := 5 # 100.

(** [calculate_inflation] *)
Definition calculate_inflation (money_supply gdp velocity : Q) : Q :=
  if Qle_bool gdp 0 then 2 # 100 else
  let price_level := (money_supply * velocity) / gdp in
  let inflation_rate := (price_level - 1) * INFLATION_SENSITIVITY in
  Qmax (-(5 # 100)) (Qmin inflation_rate (20 # 100)).


(** [sum(JOBS[job]["automation_risk"] * server_data["job_market"][job]["employed"]
    for job in JOBS.keys())]; [None] is the [KeyError] of a catalog job
    missing from the job market. *)
Fixpoint automation_sum (jobs : list (string * job_data))
    (jm : list (string * job_market_entry)) : option Q :=
  match jobs with
  | [] => Some 0
  | (j, jd) :: js =>
    match lookup j jm with
    | None => None
    | Some e =>
      match automation_sum js jm with
      | None => None
      | Some s => Some (automation_risk jd * inject_Z (employed e) + s)
      end
    end
  end.

(** [calculate_unemployment_rate] *)
Definition calculate_unemployment_rate (sd : server_data) (total_users : Z) : option Q :=
  match lookup (cycle_phase sd) PHASE_MODIFIERS with
  | None => None
  | Some pm =>
    let base_unemployment := 5 # 100 in
    let calculated_rate := base_unemployment * pm_unemployment pm in
    match automation_sum JOBS (job_market sd) with
    | None => None
    | Some s =>
      let automation_effect := s / inject_Z (Z.max total_users 1) in
      Some (Qmin (calculated_rate + automation_effect * (1 # 10)) (50 # 100))
    end
  end.

(** [calculate_strike_probability]; [unemployment] is
    [server_data["unemployment_rate"]].  [None] is the [KeyError] of a job
    missing from the job market or of an unknown phase, or the
    [ZeroDivisionError] of a zero minimum wage. *)
Definition calculate_strike_probability (job : string) (sd : server_data)
    (unemployment union_strength : Q) : option Q :=
  match lookup job (job_market sd) with
  | None => None
  | Some _ =>
    match calculate_salary job sd 5 (cycle_phase sd) with
    | None => None
    | Some wage =>
      let mw := min_wage sd in
      if Qeq_bool (mw * (3 # 2)) 0 then None else
      let wage_dissatisfaction := Qmax 0 ((mw * (3 # 2) - wage) / (mw * (3 # 2))) in
      let unemployment_deterrent := unemployment * (1 # 2) in
      let base_probability := STRIKE_PROBABILITY_BASE in
      let strike_prob := (base_probability + wage_dissatisfaction * (3 # 10)
                          - unemployment_deterrent) * union_strength in
      Some (Qmax 0 (Qmin strike_prob (80 # 100)))
    end
  end.

(** config.py, [CLASS_BENEFITS]. *)
Record class_benefit := mk_benefit {
  welfare_eligible : bool;
  loan_interest : Q;
  max_loan : Q;
  political_power : Z
}.

Definition CLASS_BENEFITS (c : EconomicClass) : class_benefit :=
  match c with
  | LOWER => mk_benefit true (12 # 100) 5000 1
  | MIDDLE => mk_benefit false (8 # 100) 25000 3
  | UPPER => mk_benefit false (5 # 100) 100000 7
  | ELITE => mk_benefit false (3 # 100) 500000 15
  | OLIGARCH => mk_benefit false (2 # 100) 2000000 30
  end.

(** [calculate_loan_interest] *)
Definition calculate_loan_interest (economic_class : EconomicClass)
    (credit_score server_interest_rate : Q) : Q :=
  let class_rate := loan_interest (CLASS_BENEFITS economic_class) in
  let credit_modifier := 1 + ((1 # 2) - credit_score) in
  let rate_modifier := 1 + (server_interest_rate - (5 # 100)) * 2 in
  let final_rate := class_rate * credit_modifier * rate_modifier in
  Qmax (1 # 100) (Qmin final_rate (50 # 100)).

(** [calculate_political_influence].  [int_log10 x] is
    [int(math.log10(x))] for a float [x >= 1] as the platform's [math.log10]
    rounds it: just below a power of ten the rounded logarithm is already the
    next integer ([int(math.log10(9999.999999999998)) = 4]), so it is a
    parameter rather than the exact floor of the logarithm. *)
Definition calculate_political_influence (int_log10 : Q -> Z) (wealth : Q)
    (economic_class : EconomicClass) (corporation_influence : Z) : Z :=
  let base_power := political_power (CLASS_BENEFITS economic_class) in
  let wealth_power := int_log10 (Qmax wealth 1) in
  let total_power := (base_power + wealth_power + corporation_influence)%Z in
  Z.min total_power 100.

(** [calculate_welfare_payment]; [welfare_amount] is
    [server_data["settings"]["welfare_amount"]]. *)
Definition calculate_welfare_payment (welfare_amount : Q) (economic_class : EconomicClass)
    (unemployment_status : bool) : Q :=
  if negb (welfare_eligible (CLASS_BENEFITS economic_class)) then 0 else
  let base_payment := welfare_amount in
  if unemployment_status then base_payment * 2 else base_payment.

(** [optimize_portfolio]: the Sharpe ratio used as sort key. *)
Definition sharpe (x : string * investment_data) : Q :=
  annual_return (snd x) / Qmax (risk (snd x)) (1 # 100).

(** [sorted(..., key=sharpe, reverse=True)]: a stable sort in decreasing
    order, so items with equal keys keep their order. *)
Fixpoint insert_by_sharpe (x : string * investment_data)
    (l : list (string * investment_data)) : list (string * investment_data) :=
  match l with
  | [] => [x]
  | y :: l' => if Qle_bool (sharpe y) (sharpe x) then x :: l else y :: insert_by_sharpe x l'
  end.

Fixpoint sort_by_sharpe (l : list (string * investment_data))
  : list (string * investment_data) :=
  match l with
  | [] => []
  | x :: l' => insert_by_sharpe x (sort_by_sharpe l')
  end.

(** The allocation loop: the allocations made (in order; the catalog keys are
    distinct, so [allocations[inv_type] = ...] only adds keys) and the
    remaining funds. *)
Fixpoint allocate (remaining_funds risk_tolerance : Q)
    (l : list (string * investment_data)) : list (string * Q) * Q :=
  match l with
  | [] => ([], remaining_funds)
  | (inv_type, inv_data) :: l' =>
    if Qltb remaining_funds (min_amount inv_data) then
      allocate remaining_funds risk_tolerance l'
    else
      let '(allocs, rf) :=
        if Qle_bool (risk inv_data) risk_tolerance then
          let allocation := Qmin (remaining_funds * (3 # 10)) remaining_funds in
          ([(inv_type, allocation)], remaining_funds - allocation)
        else ([], remaining_funds) in
      if Qltb rf 100 then (allocs, rf) else
      let '(rest, rf') := allocate rf risk_tolerance l' in
      ((allocs ++ rest)%list, rf')
  end.

Definition optimize_portfolio (available_funds risk_tolerance : Q) : list (string * Q) :=
  fst (allocate available_funds risk_tolerance (sort_by_sharpe INVESTMENT_TYPES)).

(** [calculate_redistribution_effect]: the returned dict. *)
Record redistribution := mk_redistribution {
  new_gini : Q;
  stability : Q;
  redistributed_amount : Q
}.

Definition calculate_redistribution_effect (total_wealth gini_coefficient tax_rate : Q)
  : redistribution :=
  let tax_revenue := total_wealth * tax_rate in
  let gini_reduction := tax_rate * (1 # 2) in
  let new_gini := Qmax 0 (gini_coefficient - gini_reduction) in
  let stability := 1 - new_gini in
  mk_redistribution new_gini stability tax_revenue.

(** config.py, [ECONOMIC_EVENTS]. *)
Record econ_event := mk_event {
  probability : Q;
  gdp_impact : Q;
  unemployment_impact : Q;
  duration_days : Z
}.

Definition ECONOMIC_EVENTS : list (string * econ_event) := [
  ("stock_market_crash", mk_event (2 # 100) (-(15 # 100)) (25 # 100) 7);
  ("tech_boom", mk_event (3 # 100) (20 # 100) (-(10 # 100)) 14);
  ("natural_disaster", mk_event (1 # 100) (-(10 # 100)) (15 # 100) 5);
  ("trade_war", mk_event (2 # 100) (-(8 # 100)) (12 # 100) 21);
  ("innovation_breakthrough", mk_event (2 # 100) (15 # 100) (-(5 # 100)) 30);
  ("pandemic", mk_event (5 # 1000) (-(25 # 100)) (40 # 100) 60);
  ("oil_crisis", mk_event (15 # 1000) (-(12 # 100)) (8 # 100) 14);
  ("housing_bubble", mk_event (1 # 100) (-(20 # 100)) (30 # 100) 10)
].

(** The returned event dict: name, data, start and end times (seconds). *)
Record fired_event := mk_fired {
  ev_name : string;
  ev_data : econ_event;
  start_time : Z;
  end_time : Z
}.

(** The loop of [trigger_economic_event]; [draw i] is the [i]-th value of
    [random.random()]. *)
Fixpoint first_event (evs : list (string * econ_event)) (draw : nat -> Q) (i : nat)
    (now : Z) : option fired_event :=
  match evs with
  | [] => None
  | (name, d) :: evs' =>
    if Qltb (draw i) (probability d)
    then Some (mk_fired name d now (now + duration_days d * SECONDS_PER_DAY)%Z)
    else first_event evs' draw (S i) now
  end.

Definition trigger_economic_event (draw : nat -> Q) (now : Z) : option fired_event :=
  first_event ECONOMIC_EVENTS draw 0 now.

(** ** database.py *)

(** [create_loan]; times in seconds. *)
Definition create_loan (id : nat) (amount interest_rate : Q) (duration_days now : Z) : loan :=
  mk_loan id amount interest_rate (amount * (1 + interest_rate))
    (now + duration_days * SECONDS_PER_DAY)%Z false.

(** [get_unemployment_rate]: [jobs] lists the [job] field of the tenant's users. *)
Definition get_unemployment_rate (jobs : list string) : Q :=
  let total := Z.of_nat (length jobs) in
  let unemployed := Z.of_nat (length (filter (fun j => String.eqb j "unemployed") jobs)) in
  inject_Z unemployed / inject_Z (Z.max total 1).

(** [get_class_distribution]: the [$group] by the stored [economic_class]
    label with [{"$sum": 1}], as a dict; groups are listed in order of first
    appearance. *)
Fixpoint add_to_group (k : string) (g : list (string * Z)) : list (string * Z) :=
  match g with
  | [] => [(k, 1%Z)]
  | (k', n) :: g' => if String.eqb k k' then (k', (n + 1)%Z) :: g' else (k', n) :: add_to_group k g'
  end.

Definition get_class_distribution (labels : list string) : list (string * Z) :=
  fold_left (fun g k => add_to_group k g) labels [].

(** ** bot.py: the hourly price update and the loan check *)

(** [new_prices] of [update_server_economy]: every item of
    [server["market_prices"]] is repriced from its catalog base price;
    [None] is the [KeyError] of an item missing from [BASE_ITEMS]. *)
Fixpoint update_market_prices (market_prices : list (string * Q)) (inflation : Q)
  : option (list (string * Q)) :=
  match market_prices with
  | [] => Some []
  | (item, _) :: rest =>
    match lookup item BASE_ITEMS with
    | None => None
    | Some d =>
      match update_market_prices rest inflation with
      | None => None
      | Some np => Some ((item, calculate_item_price item (item_base_price d) inflation 1) :: np)
      end
    end
  end.



(** ** More commands *)

(** [/loan] *)
Definition loan_cmd (u : user) (loans : list loan) (server_interest_rate amount : Q)
    (new_id : nat) (now : Z) : outcome (user * loan) :=
  let total_wealth := balance u + bank u in
  let economic_class := calculate_economic_class total_wealth in
  let ml := max_loan (CLASS_BENEFITS economic_class) in
  if Qltb ml amount then Rejected "Your class can only borrow up to the maximum!" else
  let active_loans := get_active_loans loans in
  let total_debt := sum_q (map remaining active_loans) in
  if Qltb (ml * 2) (total_debt + amount) then Rejected "You have too much debt!" else
  let credit_score := Qmax 0 (Qmin 1 (1 - total_debt / (ml * 2))) in
  let ir := calculate_loan_interest economic_class credit_score server_interest_rate in
  let duration_days := 30%Z in
  Applied (mk_user (balance u + amount) (bank u),
           create_loan new_id amount ir duration_days now).




(** An election document: [candidates], [votes] (keyed by candidate id) and
    [voters]. *)
Record election := mk_election {
  candidates : list Z;
  votes : list (Z * Z);
  voters : list Z
}.

(** database.py, [create_election]. *)
Definition create_election (cands : list Z) : election :=
  mk_election cands (map (fun c => (c, 0%Z)) cands) [].

(** [{"$inc": {"votes.<c>": w}}] *)
Fixpoint inc_vote (c w : Z) (vs : list (Z * Z)) : list (Z * Z) :=
  match vs with
  | [] => [(c, w)]
  | (c', n) :: vs' => if Z.eqb c c' then (c', (n + w)%Z) :: vs' else (c', n) :: inc_vote c w vs'
  end.

(** [/vote]; [e] is the active election found, if any. *)
Definition vote (int_log10 : Q -> Z) (u : user) (e : option election)
    (voter candidate : Z) : outcome election :=
  match e with
  | None => Rejected "No active election for this position!"
  | Some e =>
    if existsb (Z.eqb voter) (voters e) then Rejected "You already voted!" else
    if negb (existsb (Z.eqb candidate) (candidates e))
    then Rejected "This person is not a candidate!" else
    let total_wealth := balance u + bank u in
    let vote_weight := calculate_political_influence int_log10 total_wealth
                         (calculate_economic_class total_wealth) 0 in
    Applied (mk_election (candidates e) (inc_vote candidate vote_weight (votes e))
               (voters e ++ [voter])%list)
  end.

Definition WELFARE_THRESHOLD : Q := 5000.

(** [/welfare]: the new user and the new [government_budget]. *)
Definition welfare (u : user) (job : string) (welfare_amount government_budget : Q)
  : outcome (user * Q) :=
  let total_wealth := balance u + bank u in
  let economic_class := calculate_economic_class total_wealth in
  if negb (welfare_eligible (CLASS_BENEFITS economic_class))
  then Rejected "You're not eligible for welfare benefits!" else
  if Qltb WELFARE_THRESHOLD total_wealth
  then Rejected "You have too much wealth for welfare!" else
  let is_unemployed := String.eqb job "unemployed" in
  let amount := calculate_welfare_payment welfare_amount economic_class is_unemployed in
  Applied (mk_user (balance u + amount) (bank u), government_budget - amount).









(** config.py, [COOLDOWNS] (seconds). *)
Definition COOLDOWN_DAILY : Z := 86400.
Definition COOLDOWN_WEEKLY : Z := 604800.
Definition COOLDOWN_MONTHLY : Z := 2592000.

(** [if user["last_x"]: if time_diff.total_seconds() < COOLDOWNS["x"]: ...] *)
Definition on_cooldown (last : option Z) (now cooldown : Z) : bool :=
  match last with
  | Some t => Z.ltb (now - t) cooldown
  | None => false
  end.

(** [list(EconomicClass).index(c)] *)
Definition class_index (c : EconomicClass) : Z :=
  match c with LOWER => 0 | MIDDLE => 1 | UPPER => 2 | ELITE => 3 | OLIGARCH => 4 end.

Definition daily_class_multiplier (c : EconomicClass) : Q :=
  match c with
  | LOWER => 1 | MIDDLE => 3 # 2 | UPPER => 2 | ELITE => 3 | OLIGARCH => 5
  end.

(** [/daily]; [streak_bonus] is [random.randint(0, 50)]. *)
Definition daily (u : user) (last_daily : option Z) (now : Z) (phase : string)
    (streak_bonus : Z) : outcome user :=
  if on_cooldown last_daily now COOLDOWN_DAILY
  then Rejected "You already claimed your daily!" else
  let total_wealth := balance u + bank u in
  let economic_class := calculate_economic_class total_wealth in
  let base_daily := 100 in
  let daily_amount := base_daily * daily_class_multiplier economic_class in
  match lookup phase PHASE_MODIFIERS with
  | None => Raised
  | Some pm =>
    let daily_amount := daily_amount * gdp_growth pm in
    let total_amount := daily_amount + inject_Z streak_bonus in
    Applied (mk_user (balance u + total_amount) (bank u))
  end.

(** [/weekly] *)
Definition weekly (u : user) (last_weekly : option Z) (now : Z) : outcome user :=
  if on_cooldown last_weekly now COOLDOWN_WEEKLY
  then Rejected "Weekly bonus not available yet" else
  let total_wealth := balance u + bank u in
  let economic_class := calculate_economic_class total_wealth in
  let weekly_amount := 1000 * (1 + inject_Z (class_index economic_class) * (1 # 2)) in
  Applied (mk_user (balance u + weekly_amount) (bank u)).

(** [/monthly] *)
Definition monthly (u : user) (last_monthly : option Z) (now : Z) : outcome user :=
  if on_cooldown last_monthly now COOLDOWN_MONTHLY
  then Rejected "Monthly bonus not available yet" else
  let total_wealth := balance u + bank u in
  let economic_class := calculate_economic_class total_wealth in
  let monthly_amount := 5000 * (1 + inject_Z (class_index economic_class)) in
  Applied (mk_user (balance u + monthly_amount) (bank u)).

(** Repeated claims at the times [ts]: the number that succeed; a success
    writes [last = now]. *)
Fixpoint successful_claims (claim : user -> option Z -> Z -> outcome user)
    (u : user) (last : option Z) (ts : list Z) : nat :=
  match ts with
  | [] => O
  | t :: ts' =>
    match claim u last t with
    | Applied u' => S (successful_claims claim u' (Some t) ts')
    | _ => successful_claims claim u last ts'
    end
  end.

(** [$set {"job_market.<j>.employed": n}]: a missing entry is created; its
    [wage_multiplier], which no code reads, is then taken as 1. *)
Fixpoint set_employed (jm : list (string * job_market_entry)) (j : string) (n : Z)
  : list (string * job_market_entry) :=
  match jm with
  | [] => [(j, mk_market n 1)]
  | (k, e) :: r =>
    if String.eqb j k then (k, mk_market n (wage_multiplier e)) :: r
    else (k, e) :: set_employed r j n
  end.

(** [$set {"job_market.<j>": e}] *)
Fixpoint set_market_entry (jm : list (string * job_market_entry)) (j : string)
    (e : job_market_entry) : list (string * job_market_entry) :=
  match jm with
  | [] => [(j, e)]
  | (k, e') :: r => if String.eqb j k then (k, e) :: r else (k, e') :: set_market_entry r j e
  end.

(** [/applyjob] with the job name already normalised: [user_job] and
    [skill_level] are the user's fields, [jm] the stored job market.  [mem]
    is the in-memory [server["job_market"]] (read for the counts), [db] the
    stored one (written).  Result: the user's new job and the stored job
    market. *)
Definition applyjob (user_job : string) (skill_level : Z)
    (jm : list (string * job_market_entry)) (job : string)
  : outcome (string * list (string * job_market_entry)) :=
  match lookup job JOBS with
  | None => Rejected "Invalid job!"
  | Some jd =>
    if String.eqb job "unemployed" then Rejected "Invalid job!" else
    if Z.ltb skill_level (skill_required jd) then Rejected "You need more skill for this job!" else
    let '(mem, db) :=
      match lookup job jm with
      | Some _ => (jm, jm)
      | None => (set_market_entry jm job (mk_market 0 1), set_market_entry jm job (mk_market 0 1))
      end in
    let step :=
      if String.eqb user_job "unemployed" then Some (mem, db) else
      let mem := match lookup user_job mem with
                 | Some _ => mem
                 | None => set_market_entry mem user_job (mk_market 1 1)
                 end in
      match lookup user_job mem with
      | None => None
      | Some old => Some (mem, set_employed db user_job (Z.max 0 (employed old - 1)))
      end in
    match step with
    | None => Raised
    | Some (mem, db) =>
      match lookup job mem with
      | None => Raised
      | Some e => Applied (job, set_employed db job (employed e + 1))
      end
    end
  end.

(** [/resign] *)
Definition resign (user_job : string) (jm : list (string * job_market_entry))
  : outcome (string * list (string * job_market_entry)) :=
  if String.eqb user_job "unemployed" then Rejected "You don't have a job!" else
  match lookup user_job jm with
  | None => Raised
  | Some e => Applied ("unemployed", set_employed jm user_job (Z.max 0 (employed e - 1)))
  end.

(** The [employed] count stored for a job. *)
Definition employed_count (jm : list (string * job_market_entry)) (j : string) : option Z :=
  option_map employed (lookup j jm).

(** ** Helpers for the properties below *)

(** Every stored [employed] count is non-negative. *)
Definition market_nonneg (jm : list (string * job_market_entry)) : bool :=
  forallb (fun je => Z.leb 0 (employed (snd je))) jm.

(** The votes cast in an election. *)
Definition total_votes (vs : list (Z * Z)) : Z := fold_right (fun cv s => (snd cv + s)%Z) 0%Z vs.

(** The stored count of a job, [d] when the job has no entry. *)
Definition count_or (d : Z) (jm : list (string * job_market_entry)) (j : string) : Z :=
  match lookup j jm with Some e => employed e | None => d end.

(** A sample stored job market. *)
Definition sample_market : list (string * job_market_entry) :=
  [("laborer", mk_market 3 1); ("cashier", mk_market 5 1)].

(** The sum of the group counts. *)
Definition group_total (g : list (string * Z)) : Z := fold_right (fun kn s => (snd kn + s)%Z) 0%Z g.

(** * Properties *)

(** ** Min and max *)

Lemma Qmax_case_le (a b : Q) : (b <= a /\ Qmax a b = a) \/ (a < b /\ Qmax a b = b).
Proof.
  unfold Qmax, GenericMinMax.gmax.
  destruct (a ?= b) eqn:E.
  - left. split; [|reflexivity]. apply Qeq_alt in E. rewrite E. apply Qle_refl.
  - right. split; [apply Qlt_alt; exact E | reflexivity].
  - left. split; [|reflexivity]. apply Qlt_le_weak, Qgt_alt, E.
Qed.

Lemma Qmin_case_le (a b : Q) : (a <= b /\ Qmin a b = a) \/ (b < a /\ Qmin a b = b).
Proof.
  unfold Qmin, GenericMinMax.gmin.
  destruct (a ?= b) eqn:E.
  - left. split; [|reflexivity]. apply Qeq_alt in E. rewrite E. apply Qle_refl.
  - left. split; [apply Qlt_le_weak, Qlt_alt, E | reflexivity].
  - right. split; [apply Qgt_alt; exact E | reflexivity].
Qed.

(** Case analysis on every [Qmin]/[Qmax] of the goal and the hypotheses. *)
Ltac destruct_minmax :=
  repeat match goal with
  | |- context [Qmax ?a ?b] =>
      let Hm := fresh "Hm" in
      destruct (Qmax_case_le a b) as [[? Hm]|[? Hm]]; rewrite Hm in *; clear Hm
  | |- context [Qmin ?a ?b] =>
      let Hm := fresh "Hm" in
      destruct (Qmin_case_le a b) as [[? Hm]|[? Hm]]; rewrite Hm in *; clear Hm
  | H : context [Qmax ?a ?b] |- _ =>
      let Hm := fresh "Hm" in
      destruct (Qmax_case_le a b) as [[? Hm]|[? Hm]]; rewrite Hm in *; clear Hm
  | H : context [Qmin ?a ?b] |- _ =>
      let Hm := fresh "Hm" in
      destruct (Qmin_case_le a b) as [[? Hm]|[? Hm]]; rewrite Hm in *; clear Hm
  end.

Lemma Qltb_true (x y : Q) : Qltb x y = true <-> x < y.
Proof.
  unfold Qltb. rewrite negb_true_iff. split; intro H.
  - apply Qnot_le_lt. intro H'. apply Qle_bool_iff in H'. congruence.
  - destruct (Qle_bool y x) eqn:E; [|reflexivity].
    apply Qle_bool_iff in E. exfalso. apply (Qlt_not_le x y); assumption.
Qed.

Lemma Qltb_false (x y : Q) : Qltb x y = false <-> y <= x.
Proof.
  unfold Qltb. rewrite negb_false_iff. apply Qle_bool_iff.
Qed.

Lemma Qle_bool_false (x y : Q) : Qle_bool x y = false <-> y < x.
Proof.
  split; intro H.
  - apply Qnot_le_lt. intro H'. apply Qle_bool_iff in H'. congruence.
  - destruct (Qle_bool x y) eqn:E; [|reflexivity].
    apply Qle_bool_iff in E. exfalso. apply (Qlt_not_le y x); assumption.
Qed.

(** A worked value: the beggar wage in a fresh tenant is lifted to the minimum wage. *)
Example salary_beggar :
  calculate_salary "beggar" (default_server 0) 0 "expansion" = Some 1500.
Proof. reflexivity. Qed.

(** ** C1: economic classes *)

(** C1 (code_bug).  The five bands of [CLASS_THRESHOLDS] have integer bounds
    tested inclusively, so a wealth strictly between two adjacent boundaries,
    such as 10000.5, lies in none of them; [calculate_economic_class] then
    falls through to [LOWER], which it also returns for 50000.5. *)
Theorem class_bands_leave_gaps :
  bands_containing (20001 # 2) = [] /\
  calculate_economic_class (20001 # 2) = LOWER /\
  bands_containing (100001 # 2) = [] /\
  calculate_economic_class (100001 # 2) = LOWER.
Proof. repeat split; reflexivity. Qed.

(** ** C2: wages *)




(** ** C3: the Gini coefficient *)

Lemma sort_q_repeat (x : Q) (n : nat) : sort_q (repeat x n) = repeat x n.
Proof.
  induction n as [|n IH]; [reflexivity|].
  simpl. rewrite IH. destruct n as [|n]; [reflexivity|].
  simpl. replace (Qle_bool x x) with true; [reflexivity|].
  symmetry. apply Qle_bool_iff, Qle_refl.
Qed.

Lemma inject_Z_of_nat_succ (n : nat) :
  inject_Z (Z.of_nat (S n)) == inject_Z (Z.of_nat n) + 1.
Proof. rewrite Nat2Z.inj_succ, <- Z.add_1_r, inject_Z_plus. reflexivity. Qed.

Lemma sum_q_repeat (x : Q) (n : nat) :
  sum_q (repeat x n) == inject_Z (Z.of_nat n) * x.
Proof.
  induction n as [|n IH]; [reflexivity|].
  simpl sum_q. rewrite IH, inject_Z_of_nat_succ. ring.
Qed.

Lemma weighted_sum_repeat (x : Q) (n : nat) : forall i,
  2 * weighted_sum i (repeat x n) ==
  x * (inject_Z (Z.of_nat n) * (2 * inject_Z i + inject_Z (Z.of_nat n) + 1)).
Proof.
  induction n as [|n IH]; intro i; [simpl; ring|].
  simpl weighted_sum. rewrite Qmult_plus_distr_r, IH.
  rewrite inject_Z_of_nat_succ, !inject_Z_plus. ring.
Qed.

Lemma map_wealth_constant (users : list user) (x : Q) :
  Forall (fun u => balance u + bank u = x) users ->
  map (fun u => balance u + bank u) users = repeat x (length users).
Proof.
  induction 1 as [|u us Hu _ IH]; [reflexivity|]. simpl. rewrite Hu, IH. reflexivity.
Qed.

(** Populations of fewer than two users have coefficient 0. *)
Lemma gini_small_population (users : list user) :
  (length users < 2)%nat -> calculate_gini_coefficient users = Some 0.
Proof.
  intro H. unfold calculate_gini_coefficient.
  apply Nat.ltb_lt in H. rewrite H. reflexivity.
Qed.

(** With a positive common wealth the coefficient is 0. *)
Lemma gini_equal_positive (users : list user) (x : Q) :
  (2 <= length users)%nat -> 0 < x ->
  Forall (fun u => balance u + bank u = x) users ->
  exists g, calculate_gini_coefficient users = Some g /\ g == 0.
Proof.
  intros Hn Hx Hall. unfold calculate_gini_coefficient.
  replace (Nat.ltb (length users) 2) with false
    by (symmetry; apply Nat.ltb_ge; exact Hn).
  rewrite (map_wealth_constant users x Hall), sort_q_repeat, repeat_length.
  set (nQ := inject_Z (Z.of_nat (length users))).
  assert (HnQ : 2 <= nQ).
  { unfold nQ. change (inject_Z 2 <= inject_Z (Z.of_nat (length users))).
    rewrite <- Zle_Qle. lia. }
  assert (Hden : ~ nQ * sum_q (repeat x (length users)) == 0).
  { rewrite sum_q_repeat. fold nQ. intro E.
    assert (Hp : 0 < nQ * (nQ * x)).
    { apply Qmult_lt_0_compat; [lra|]. apply Qmult_lt_0_compat; lra. }
    rewrite E in Hp. discriminate. }
  destruct (Qeq_bool (nQ * sum_q (repeat x (length users))) 0) eqn:E.
  - apply Qeq_bool_iff in E. contradiction.
  - eexists. split; [reflexivity|].
    rewrite weighted_sum_repeat, sum_q_repeat. fold nQ.
    change (inject_Z 0) with 0.
    field. split; intro Z0; [lra|].
    rewrite Z0 in Hx. discriminate.
Qed.

(** C3 (code_bug).  For two users whose common wealth is 0,
    [calculate_gini_coefficient] divides by [n * sum(wealth) = 0] and raises
    [ZeroDivisionError] instead of returning 0. *)
Theorem gini_all_zero_raises :
  calculate_gini_coefficient [mk_user 0 0; mk_user 0 0] = None.
Proof. reflexivity. Qed.

(** ** C4: balances stay non-negative *)

Definition nonneg (u : user) : Prop := 0 <= balance u /\ 0 <= bank u.


Lemma lookup_Forall {A : Type} (P : A -> Prop) (k : string) (d : list (string * A)) (v : A) :
  Forall (fun kv => P (snd kv)) d -> lookup k d = Some v -> P v.
Proof.
  induction 1 as [|[k' v'] d' Hkv _ IH]; simpl; [discriminate|].
  destruct (String.eqb k k'); [intro E; injection E as <-; exact Hkv | exact IH].
Qed.






(** Case analysis on the guards of a command. *)
Ltac split_guards :=
  repeat match goal with
  | H : context [if Qle_bool ?a ?b then _ else _] |- _ =>
      let E := fresh "E" in destruct (Qle_bool a b) eqn:E;
      [apply Qle_bool_iff in E | apply Qle_bool_false in E]
  | H : context [if Qltb ?a ?b then _ else _] |- _ =>
      let E := fresh "E" in destruct (Qltb a b) eqn:E;
      [apply Qltb_true in E | apply Qltb_false in E]
  | H : context [if ?b then _ else _] |- _ =>
      match type of b with bool => is_var b; destruct b end
  end.













(** ** C5: the periodic batch update *)

(** A concrete store for the examples: how many ticks each tenant received.
    The tick of tenant 1 raises before writing anything; the tick of tenant 4
    writes its update and then raises (as when [record_market_snapshot]
    fails after [update_server]). *)
Definition bump (g : Z) (st : list (Z * nat)) : list (Z * nat) :=
  map (fun e => if Z.eqb (fst e) g then (fst e, S (snd e)) else e) st.

Definition tick_counter (g : Z) (st : list (Z * nat)) : tick_result (list (Z * nat)) :=
  if Z.eqb g 1 then Failed st
  else if Z.eqb g 4 then Failed (bump g st)
  else Ticked (bump g st).

(** C5 (counterexample).  With tenants 1 and 2, when the tick of tenant 1
    raises, tenant 2 is not updated in that run: the failure is printed and
    the batch ends. *)
Lemma update_loop_failure_stops_batch :
  economic_update_loop _ tick_counter [1; 2]%Z [(1%Z, 0%nat); (2%Z, 0%nat)]
    = ([(1%Z, 0%nat); (2%Z, 0%nat)], [update_loop_error]).
Proof. reflexivity. Qed.

(** C5 (amended).  The per-tenant exception is caught and printed once, but it
    ends the batch: the tenants ticked before the failing one keep their
    updates, the failing tenant keeps exactly what its tick wrote before
    raising, and no tenant after it is ticked in that run. *)
Theorem update_loop_stops_at_first_failure :
  forall (S : Type) (tick : Z -> S -> tick_result S) (before after : list Z) (g : Z)
         (st st1 st2 : S),
    run_ticks _ tick before st = Some st1 ->
    tick g st1 = Failed st2 ->
    economic_update_loop _ tick (before ++ g :: after) st = (st2, [update_loop_error]).
Proof.
  intros S tick before after g. induction before as [|g' gs IH]; intros st st1 st2 Hrun Hg.
  - simpl in Hrun. injection Hrun as <-. simpl. rewrite Hg. reflexivity.
  - simpl in Hrun |- *. destruct (tick g' st) as [st'|st']; [|discriminate].
    apply (IH st' st1 st2); assumption.
Qed.

Lemma update_loop_all_succeed :
  forall (S : Type) (tick : Z -> S -> tick_result S) (guilds : list Z) (st st' : S),
    run_ticks _ tick guilds st = Some st' ->
    economic_update_loop _ tick guilds st = (st', []).
Proof.
  intros S tick guilds. induction guilds as [|g gs IH]; intros st st' H; simpl in *.
  - injection H as <-. reflexivity.
  - destruct (tick g st); [apply IH, H | discriminate].
Qed.

Lemma update_loop_stops_at_first_failure_witness :
  run_ticks _ tick_counter [2%Z] [(2%Z, 0%nat); (3%Z, 0%nat); (4%Z, 0%nat)]
    = Some [(2%Z, 1%nat); (3%Z, 0%nat); (4%Z, 0%nat)] /\
  tick_counter 4 [(2%Z, 1%nat); (3%Z, 0%nat); (4%Z, 0%nat)]
    = Failed [(2%Z, 1%nat); (3%Z, 0%nat); (4%Z, 1%nat)] /\
  economic_update_loop _ tick_counter ([2%Z] ++ 4%Z :: [3%Z])
    [(2%Z, 0%nat); (3%Z, 0%nat); (4%Z, 0%nat)]
    = ([(2%Z, 1%nat); (3%Z, 0%nat); (4%Z, 1%nat)], [update_loop_error]).
Proof.
  split; [reflexivity|]. split; [reflexivity|].
  apply (update_loop_stops_at_first_failure _ tick_counter [2%Z] [3%Z] 4%Z
           [(2%Z, 0%nat); (3%Z, 0%nat); (4%Z, 0%nat)]
           [(2%Z, 1%nat); (3%Z, 0%nat); (4%Z, 0%nat)]); reflexivity.
Defined.

(** ** C6: the business cycle *)

Lemma cycle_phase_known (p : string) :
  In p CYCLE_PHASES -> exists pm, lookup p PHASE_MODIFIERS = Some pm.
Proof.
  simpl. intros [<-|[<-|[<-|[<-|[<-|[]]]]]]; eexists; reflexivity.
Qed.

Lemma nth_cycle_phase_in (i : Z) :
  In (nth (Z.to_nat (Z.modulo i (Z.of_nat (length CYCLE_PHASES)))) CYCLE_PHASES "")
     CYCLE_PHASES.
Proof.
  apply nth_In. simpl length.
  assert (H := Z.mod_pos_bound i 5 ltac:(lia)). lia.
Qed.

(** C6.  The cycle start is written once, as [datetime.utcnow()] when the
    server document is created (database.py), so every later evaluation has a
    current time at or after it.  For every such time the phase returned is
    [CYCLE_PHASES[floor(daysElapsed / (CYCLE_DURATION_DAYS/5)) mod 5]], except
    that a time-derived [expansion] becomes [recession] when the random draw
    is below 0.05 (the only use of the draw); the modifiers returned are those
    of that phase, and the snapshot written back keeps its cycle start.  With
    no shock the phase is [expansion] at 0 elapsed days and again after one
    full cycle. *)
Theorem update_economic_cycle_phase :
  forall (sd : server_data) (now : Z) (rnd : Q),
    (cycle_start sd <= now)%Z ->
    (exists pm,
      update_economic_cycle sd now rnd = Some (spec_cycle_phase (cycle_start sd) now rnd, pm) /\
      lookup (spec_cycle_phase (cycle_start sd) now rnd) PHASE_MODIFIERS = Some pm /\
      forall new_gdp,
        cycle_start (set_server_economy sd (spec_cycle_phase (cycle_start sd) now rnd) new_gdp)
          = cycle_start sd) /\
    (5 # 100 <= rnd ->
     option_map fst (update_economic_cycle sd (cycle_start sd) rnd) = Some "expansion" /\
     option_map fst (update_economic_cycle sd
                       (cycle_start sd + CYCLE_DURATION_DAYS * SECONDS_PER_DAY) rnd)
       = Some "expansion").
Proof.
  intros sd now rnd Hle.
  assert (Hdays : (0 <= days_between (cycle_start sd) now)%Z).
  { unfold days_between, SECONDS_PER_DAY. apply Z.div_pos; lia. }
  assert (Hidx : current_phase_index (days_between (cycle_start sd) now) =
                 Z.modulo (Z.div (days_between (cycle_start sd) now
                                  * Z.of_nat (length CYCLE_PHASES)) CYCLE_DURATION_DAYS)
                          (Z.of_nat (length CYCLE_PHASES))).
  { unfold current_phase_index. f_equal. apply Z.quot_div_nonneg;
      [simpl length; lia | unfold CYCLE_DURATION_DAYS; lia]. }
  assert (Hin : In (spec_cycle_phase (cycle_start sd) now rnd) CYCLE_PHASES).
  { unfold spec_cycle_phase.
    destruct (_ && _); [simpl; tauto | apply nth_cycle_phase_in]. }
  destruct (cycle_phase_known _ Hin) as [pm Hpm].
  split.
  - exists pm. split; [|split; [exact Hpm | reflexivity]].
    unfold update_economic_cycle. rewrite Hidx.
    unfold spec_cycle_phase in Hpm |- *. rewrite Hpm. reflexivity.
  - intro Hr. apply Qltb_false in Hr. unfold update_economic_cycle, days_between.
    rewrite Z.sub_diag.
    replace (cycle_start sd + CYCLE_DURATION_DAYS * SECONDS_PER_DAY - cycle_start sd)%Z
      with (CYCLE_DURATION_DAYS * SECONDS_PER_DAY)%Z by lia.
    rewrite Hr. split; reflexivity.
Qed.

Lemma update_economic_cycle_phase_witness :
  (0 <= 28 * 86400)%Z /\
  exists pm,
    update_economic_cycle (default_server 0) (28 * 86400) (1 # 2)
      = Some (spec_cycle_phase 0 (28 * 86400) (1 # 2), pm) /\
    lookup (spec_cycle_phase 0 (28 * 86400) (1 # 2)) PHASE_MODIFIERS = Some pm /\
    forall new_gdp,
      cycle_start (set_server_economy (default_server 0)
                     (spec_cycle_phase 0 (28 * 86400) (1 # 2)) new_gdp) = 0%Z.
Proof.
  split; [lia|].
  exact (proj1 (update_economic_cycle_phase (default_server 0) (28 * 86400) (1 # 2)
                  ltac:(simpl; lia))).
Defined.

Example cycle_full_period_expansion :
  spec_cycle_phase 0 (28 * 86400) (1 # 2) = "expansion" /\
  spec_cycle_phase 0 0 (1 # 2) = "expansion" /\
  spec_cycle_phase 0 0 (1 # 100) = "recession" /\
  spec_cycle_phase 0 (6 * 86400) (1 # 100) = "peak".
Proof. repeat split; reflexivity. Qed.

(** ** C7: crime success probability *)

Lemma crime_base_success_nonneg (ct : string) (cd : crime_data) :
  lookup ct CRIME_TYPES = Some cd -> 0 <= base_success cd.
Proof.
  apply (lookup_Forall (fun cd => 0 <= base_success cd)).
  repeat constructor; simpl; discriminate.
Qed.

(** C7.  For every crime type of the catalog, the success probability is the
    specification's formula; with skill 10, required skill 0, Gini 0.60,
    unemployment 0.20 and no police it is
    [min(base_success + 0.5 + 0.075 + 0.06, 0.95)]. *)
Theorem crime_success_rate_formula :
  forall (ct : string) (cd : crime_data),
    lookup ct CRIME_TYPES = Some cd ->
    (forall user_skill inequality police_strength unemployment_rate,
       exists r,
         calculate_crime_success_rate ct user_skill inequality police_strength
           unemployment_rate = Some r /\
         r == spec_crime_success_rate (base_success cd)
                (inject_Z (crime_skill_required cd)) user_skill inequality
                police_strength unemployment_rate) /\
    (crime_skill_required cd = 0%Z ->
       exists r,
         calculate_crime_success_rate ct 10 (60 # 100) 0 (20 # 100) = Some r /\
         r == Qmin (base_success cd + (1 # 2) + (75 # 1000) + (6 # 100)) (95 # 100)).
Proof.
  intros ct cd Hcd. split.
  - intros s g p u. unfold calculate_crime_success_rate. rewrite Hcd.
    eexists. split; [reflexivity|].
    unfold spec_crime_success_rate, clamp.
    unfold Z.sub. rewrite inject_Z_plus, inject_Z_opp.
    destruct_minmax; lra.
  - intros Hreq. unfold calculate_crime_success_rate. rewrite Hcd, Hreq.
    eexists. split; [reflexivity|].
    apply crime_base_success_nonneg in Hcd.
    change (inject_Z (10 - 0)) with 10.
    destruct_minmax; lra.
Qed.

Lemma crime_success_rate_formula_witness :
  lookup "pickpocket" CRIME_TYPES = Some (mk_crime (2 # 5) 100 500 2 0) /\
  exists r,
    calculate_crime_success_rate "pickpocket" 10 (60 # 100) 0 (20 # 100) = Some r /\
    r == Qmin (base_success (mk_crime (2 # 5) 100 500 2 0) + (1 # 2) + (75 # 1000)
               + (6 # 100)) (95 # 100).
Proof.
  split; [reflexivity|].
  apply (proj2 (crime_success_rate_formula "pickpocket" (mk_crime (2 # 5) 100 500 2 0)
                  eq_refl)).
  reflexivity.
Defined.

(** ** C8: loan balances *)

(** With non-negative wealth, a default does not raise the remaining balance. *)
Lemma handle_loan_default_lowers (u : user) (l : loan) :
  nonneg u -> 0 <= remaining l ->
  (0 <= remaining (snd (handle_loan_default u l)) <= remaining l) /\
  defaulted (snd (handle_loan_default u l)) = true.
Proof.
  intros [Hb Hk] Hr. unfold handle_loan_default; simpl.
  split; [|reflexivity]. destruct_minmax; lra.
Qed.

(** C8 (code_bug).  A new user (cash 1000) who sells [-1000] units of bread
    at price 5 (a negative quantity passes the [current_quantity < quantity]
    check) is left with cash -2500; when an overdue loan of 500 defaults, the
    seized amount [min(-2500, 500)] is negative and the loan's remaining
    balance rises to 3000. *)
Theorem loan_default_raises_remaining :
  exists u,
    sell new_user 0 5 (-1000) = Applied u /\ balance u == -2500 /\
    remaining (snd (handle_loan_default u (mk_loan 0 400 (1 # 4) 500 0 false))) == 3000 /\
    defaulted (snd (handle_loan_default u (mk_loan 0 400 (1 # 4) 500 0 false))) = true.
Proof.
  eexists. split; [reflexivity|].
  split; [vm_compute; reflexivity|]. split; [vm_compute; reflexivity | reflexivity].
Qed.

(** ** C9: validation at the command boundary *)






(** ** C10: investment values *)

(** C10.  Every revaluation return is clamped to [[-0.90, 5.0]] for
    cryptocurrency, [[-0.80, 3.0]] for venture capital and [[-0.50, 1.0]] for
    the other instruments; an investment is created with a current value equal
    to a principal of at least the instrument's (positive) minimum amount, and
    a revaluation multiplies the current value by [1 + r >= 0.1], so the
    current value stays strictly positive. *)
Lemma investment_return_bounds (t : string) (g : option Q) (h : Z) (shock r : Q) :
  calculate_investment_return t g h shock = Some r ->
  (t = "cryptocurrency" -> -(9 # 10) <= r <= 5) /\
  (t = "venture_capital" -> -(8 # 10) <= r <= 3) /\
  (t <> "cryptocurrency" -> t <> "venture_capital" -> -(5 # 10) <= r <= 1).
Proof.
  intro H. unfold calculate_investment_return in H.
  destruct (lookup t INVESTMENT_TYPES); [|discriminate].
  destruct (String.eqb_spec t "cryptocurrency") as [->|Hc].
  - injection H as <-. split; [intros _; destruct_minmax; split; lra|].
    split; intros; [discriminate | contradiction].
  - destruct (String.eqb_spec t "venture_capital") as [->|Hv].
    + injection H as <-. split; [intro; discriminate|].
      split; [intros _; destruct_minmax; split; lra | intros _ []; reflexivity].
    + injection H as <-. split; [intro; contradiction|].
      split; [intro; contradiction | intros _ _; destruct_minmax; split; lra].
Qed.

Lemma investment_return_floor (t : string) (g : option Q) (h : Z) (shock r : Q) :
  calculate_investment_return t g h shock = Some r -> -(9 # 10) <= r.
Proof.
  intro H. destruct (investment_return_bounds t g h shock r H) as [Hc [Hv Ho]].
  destruct (String.eqb_spec t "cryptocurrency") as [E|Nc]; [apply Hc in E; lra|].
  destruct (String.eqb_spec t "venture_capital") as [E|Nv]; [apply Hv in E; lra|].
  destruct (Ho Nc Nv); lra.
Qed.

Theorem investment_value_stays_positive :
  (forall (t : string) (g : option Q) (h : Z) (shock r : Q),
     calculate_investment_return t g h shock = Some r ->
     (t = "cryptocurrency" -> -(9 # 10) <= r <= 5) /\
     (t = "venture_capital" -> -(8 # 10) <= r <= 3) /\
     (t <> "cryptocurrency" -> t <> "venture_capital" -> -(5 # 10) <= r <= 1)) /\
  (forall (u u' : user) (t : string) (amount : Q) (now : Z) (inv : investment),
     invest u t amount now = Applied (u', inv) -> 0 < current_value inv) /\
  (forall (inv inv' : investment) (sd : server_data) (now : Z) (shock : Q),
     0 < current_value inv -> update_investment_value inv sd now shock = Some inv' ->
     (1 # 10) * current_value inv <= current_value inv' /\ 0 < current_value inv').
Proof.
  split; [exact investment_return_bounds|]. split.
  - intros u u' t amount now inv H. unfold invest in H.
    destruct (lookup t INVESTMENT_TYPES) as [d|] eqn:Ed; [|discriminate].
    assert (Hmin : 0 < min_amount d).
    { revert Ed. apply (lookup_Forall (fun d => 0 < min_amount d)).
      repeat constructor. }
    split_guards; try discriminate. injection H as _ <-. simpl. lra.
  - intros inv inv' sd now shock Hpos H. unfold update_investment_value in H.
    destruct (Z.eqb _ 0).
    { injection H as <-. split; lra. }
    destruct (lookup (cycle_phase sd) PHASE_MODIFIERS) as [pm|]; [|discriminate].
    destruct (calculate_investment_return _ _ _ _) as [r|] eqn:Er; [|discriminate].
    apply investment_return_floor in Er. injection H as <-. simpl.
    assert (Hd : 0 <= current_value inv * ((1 + r) - (1 # 10))).
    { apply Qmult_le_0_compat; lra. }
    assert (Hq : current_value inv * ((1 + r) - (1 # 10))
                 == current_value inv * (1 + r) - (1 # 10) * current_value inv) by ring.
    rewrite Hq in Hd. split; lra.
Qed.

Lemma investment_value_stays_positive_witness :
  (1 # 10) * current_value (create_investment "cryptocurrency" 100 0)
    <= current_value (mk_inv "cryptocurrency" 100 (100 * (1 + -(9 # 10))) 86400) /\
  0 < current_value (mk_inv "cryptocurrency" 100 (100 * (1 + -(9 # 10))) 86400).
Proof.
  apply (proj2 (proj2 investment_value_stays_positive)
           (create_investment "cryptocurrency" 100 0)
           (mk_inv "cryptocurrency" 100 (100 * (1 + -(9 # 10))) 86400)
           (default_server 0) 86400%Z (-100)).
  - simpl. lra.
  - reflexivity.
Defined.

(** ** Further properties of the code *)

(** calculate_inflation: the rate always lies in [-0.05, 0.20], and a
    non-positive GDP gives the fixed rate 0.02. *)
Theorem calculate_inflation_bounded (money_supply gdp velocity : Q) :
  -(5 # 100) <= calculate_inflation money_supply gdp velocity <= 20 # 100 /\
  (gdp <= 0 -> calculate_inflation money_supply gdp velocity = 2 # 100).
Proof.
  unfold calculate_inflation. split.
  - destruct (Qle_bool gdp 0); [split; discriminate|].
    destruct_minmax; lra.
  - intro H. apply Qle_bool_iff in H. rewrite H. reflexivity.
Qed.


Lemma market_nonneg_lookup (jm : list (string * job_market_entry)) (j : string)
    (e : job_market_entry) :
  market_nonneg jm = true -> lookup j jm = Some e -> (0 <= employed e)%Z.
Proof.
  induction jm as [|[k e'] jm IH]; simpl; [discriminate|].
  intros H. apply andb_true_iff in H as [H1 H2].
  destruct (String.eqb j k); [intro E; injection E as <-; apply Z.leb_le, H1 | auto].
Qed.

Lemma automation_sum_nonneg (jobs : list (string * job_data))
    (jm : list (string * job_market_entry)) (s : Q) :
  Forall (fun jd => 0 <= automation_risk (snd jd)) jobs ->
  market_nonneg jm = true -> automation_sum jobs jm = Some s -> 0 <= s.
Proof.
  intros HF Hm. revert s.
  induction HF as [|[j jd] jobs Hjd _ IH]; simpl; intros s H.
  - injection H as <-. apply Qle_refl.
  - destruct (lookup j jm) as [e|] eqn:E; [|discriminate].
    destruct (automation_sum jobs jm) as [s'|]; [|discriminate].
    injection H as <-.
    pose proof (market_nonneg_lookup jm j e Hm E) as He.
    assert (0 <= inject_Z (employed e)) by (change 0 with (inject_Z 0); rewrite <- Zle_Qle; exact He).
    specialize (IH s' eq_refl).
    simpl in Hjd.
    assert (0 <= automation_risk jd * inject_Z (employed e)) by (apply Qmult_le_0_compat; assumption).
    lra.
Qed.

Lemma automation_sum_missing (jobs : list (string * job_data))
    (jm : list (string * job_market_entry)) (j : string) (jd : job_data) :
  In (j, jd) jobs -> lookup j jm = None -> automation_sum jobs jm = None.
Proof.
  induction jobs as [|[j' jd'] jobs IH]; simpl; [contradiction|].
  intros [E|H] Hn.
  - injection E as -> ->. rewrite Hn. reflexivity.
  - destruct (lookup j' jm); [|reflexivity]. rewrite (IH H Hn). reflexivity.
Qed.

(** calculate_unemployment_rate: with non-negative employment counts the
    rate lies in [0.0425, 0.5]; a catalog job missing from the job market
    makes it raise. *)
Theorem calculate_unemployment_rate_range (sd : server_data) (total_users : Z) :
  (market_nonneg (job_market sd) = true -> forall r,
     calculate_unemployment_rate sd total_users = Some r -> 17 # 400 <= r <= 1 # 2) /\
  (forall j jd, In (j, jd) JOBS -> lookup j (job_market sd) = None ->
     calculate_unemployment_rate sd total_users = None).
Proof.
  unfold calculate_unemployment_rate. split.
  - intros Hm r H.
    destruct (lookup (cycle_phase sd) PHASE_MODIFIERS) as [pm|] eqn:Ep; [|discriminate].
    destruct (automation_sum JOBS (job_market sd)) as [s|] eqn:Es; [|discriminate].
    injection H as <-.
    assert (Hpm : 85 # 100 <= pm_unemployment pm).
    { revert Ep. unfold PHASE_MODIFIERS. simpl.
      repeat match goal with |- context [if String.eqb ?a ?b then _ else _] =>
        destruct (String.eqb a b) end;
      intro E; try discriminate; injection E as <-; simpl; discriminate. }
    assert (Hs : 0 <= s).
    { apply (automation_sum_nonneg JOBS (job_market sd)); [|exact Hm|exact Es].
      repeat constructor; simpl; discriminate. }
    assert (Hd : 0 < inject_Z (Z.max total_users 1)).
    { change 0 with (inject_Z 0). rewrite <- Zlt_Qlt. lia. }
    assert (0 <= s / inject_Z (Z.max total_users 1)).
    { apply Qle_shift_div_l; [exact Hd|]. rewrite Qmult_0_l. exact Hs. }
    destruct_minmax; lra.
  - intros j jd Hin Hn.
    destruct (lookup (cycle_phase sd) PHASE_MODIFIERS); [|reflexivity].
    rewrite (automation_sum_missing JOBS (job_market sd) j jd Hin Hn). reflexivity.
Qed.

(** calculate_strike_probability: a computed probability lies in [0, 0.8];
    a zero minimum wage makes the division raise. *)
Theorem calculate_strike_probability_range (job : string) (sd : server_data)
    (unemployment union_strength : Q) :
  (forall p, calculate_strike_probability job sd unemployment union_strength = Some p ->
     0 <= p <= 4 # 5) /\
  (min_wage sd == 0 -> calculate_strike_probability job sd unemployment union_strength = None).
Proof.
  unfold calculate_strike_probability. split.
  - intros p H.
    destruct (lookup job (job_market sd)); [|discriminate].
    destruct (calculate_salary job sd 5 (cycle_phase sd)); [|discriminate].
    destruct (Qeq_bool (min_wage sd * (3 # 2)) 0); [discriminate|].
    injection H as <-. destruct_minmax; lra.
  - intro H0.
    destruct (lookup job (job_market sd)); [|reflexivity].
    destruct (calculate_salary job sd 5 (cycle_phase sd)); [|reflexivity].
    assert (E : Qeq_bool (min_wage sd * (3 # 2)) 0 = true).
    { apply Qeq_bool_iff. rewrite H0. reflexivity. }
    rewrite E. reflexivity.
Qed.

(** calculate_loan_interest: the rate lies in [0.01, 0.5], and a better
    credit score never gives a higher rate while the server rate is at least
    -0.45. *)
Theorem calculate_loan_interest_range (c : EconomicClass) (cs1 cs2 r : Q) :
  (1 # 100 <= calculate_loan_interest c cs1 r <= 1 # 2) /\
  (cs1 <= cs2 -> -(9 # 20) <= r ->
   calculate_loan_interest c cs2 r <= calculate_loan_interest c cs1 r).
Proof.
  unfold calculate_loan_interest. split.
  - destruct_minmax; lra.
  - intros Hc Hr.
    set (k := loan_interest (CLASS_BENEFITS c)) in *.
    set (m := 1 + (r - (5 # 100)) * 2).
    assert (Hk : 0 <= k) by (unfold k; destruct c; simpl; discriminate).
    assert (Hm : 0 <= m) by (unfold m; lra).
    assert (Hf : k * (1 + ((1 # 2) - cs2)) * m <= k * (1 + ((1 # 2) - cs1)) * m).
    { assert (0 <= k * (cs2 - cs1) * m).
      { apply Qmult_le_0_compat; [apply Qmult_le_0_compat; lra | exact Hm]. }
      assert (E : k * (1 + ((1 # 2) - cs1)) * m - k * (1 + ((1 # 2) - cs2)) * m
                  == k * (cs2 - cs1) * m) by ring.
      lra. }
    set (f1 := k * (1 + ((1 # 2) - cs1)) * m) in *.
    set (f2 := k * (1 + ((1 # 2) - cs2)) * m) in *.
    clearbody f1 f2.
    destruct_minmax; lra.
Qed.

(** Classes of small fortunes. *)
Lemma class_lower_upto (w : Q) : w <= 10000 -> calculate_economic_class w = LOWER.
Proof.
  intro H. unfold calculate_economic_class, first_class, CLASS_THRESHOLDS, in_band.
  assert (E2 : Qle_bool w 10000 = true) by (apply Qle_bool_iff; exact H).
  destruct (Qle_bool 0 w) eqn:E0.
  - rewrite E2. reflexivity.
  - apply Qle_bool_false in E0.
    assert (E3 : Qle_bool 10001 w = false) by (apply Qle_bool_false; lra).
    assert (E4 : Qle_bool 50001 w = false) by (apply Qle_bool_false; lra).
    assert (E5 : Qle_bool 200001 w = false) by (apply Qle_bool_false; lra).
    assert (E6 : Qle_bool 1000001 w = false) by (apply Qle_bool_false; lra).
    simpl. rewrite E3, E4, E5, E6. reflexivity.
Qed.

(** /loan: an accepted loan of a non-negative amount is within the class
    maximum and keeps the total debt within twice that maximum; its rate lies
    in [0.01, 0.5], it is due in 30 days with [remaining = amount * (1 + rate)],
    and the amount is credited to the cash balance. *)
Theorem loan_cmd_limits (u : user) (loans : list loan) (sr amount : Q) (id : nat)
    (now : Z) (u' : user) (l : loan) :
  0 <= amount ->
  loan_cmd u loans sr amount id now = Applied (u', l) ->
  let ml := max_loan (CLASS_BENEFITS (calculate_economic_class (balance u + bank u))) in
  let debt := sum_q (map remaining (get_active_loans loans)) in
  amount <= ml /\ debt + amount <= 2 * ml /\
  1 # 100 <= interest_rate l <= 1 # 2 /\
  remaining l == amount * (1 + interest_rate l) /\
  debt + remaining l <= (5 # 2) * ml /\
  balance u' == balance u + amount /\ bank u' = bank u /\
  due_date l = (now + 30 * SECONDS_PER_DAY)%Z /\ defaulted l = false.
Proof.
  intros Ha H ml debt. unfold loan_cmd in H. fold ml in H. fold debt in H.
  destruct (Qltb ml amount) eqn:E1; [discriminate|].
  destruct (Qltb (ml * 2) (debt + amount)) eqn:E2; [discriminate|].
  apply Qltb_false in E1. apply Qltb_false in E2.
  injection H as <- <-. simpl.
  set (ir := calculate_loan_interest _ _ _).
  assert (Hir : 1 # 100 <= ir <= 1 # 2) by exact (proj1 (calculate_loan_interest_range _ _ 0 _)).
  assert (Hm : 0 <= amount * ir <= amount * (1 # 2)).
  { split; [apply Qmult_le_0_compat; lra|].
    assert (0 <= amount * ((1 # 2) - ir)) by (apply Qmult_le_0_compat; lra).
    assert (amount * ((1 # 2) - ir) == amount * (1 # 2) - amount * ir) by ring. lra. }
  assert (Hr : amount * (1 + ir) == amount + amount * ir) by ring.
  repeat split; try reflexivity; lra.
Qed.

Lemma loan_cmd_limits_witness :
  let u := mk_user 3000 0 in
  let r := loan_cmd u [] (5 # 100) 1000 1 0 in
  0 <= 1000 /\ exists u' l, r = Applied (u', l) /\
  (let ml := max_loan (CLASS_BENEFITS (calculate_economic_class (balance u + bank u))) in
   let debt := sum_q (map remaining (get_active_loans [])) in
   1000 <= ml /\ debt + 1000 <= 2 * ml /\
   1 # 100 <= interest_rate l <= 1 # 2 /\
   remaining l == 1000 * (1 + interest_rate l) /\
   debt + remaining l <= (5 # 2) * ml /\
   balance u' == balance u + 1000 /\ bank u' = bank u /\
   due_date l = (0 + 30 * SECONDS_PER_DAY)%Z /\ defaulted l = false).
Proof.
  intros u r. split; [discriminate|].
  destruct r as [m| |[u' l]] eqn:E; unfold r in E; vm_compute in E; try discriminate.
  exists u', l. split; [reflexivity|].
  exact (loan_cmd_limits u [] (5 # 100) 1000 1 0 u' l ltac:(discriminate) E).
Defined.

Lemma inc_vote_total (c w : Z) (vs : list (Z * Z)) :
  total_votes (inc_vote c w vs) = (total_votes vs + w)%Z.
Proof.
  induction vs as [|[c' n] vs IH]; simpl; [lia|].
  destruct (Z.eqb c c'); simpl; [|rewrite IH]; unfold total_votes in *; simpl; lia.
Qed.

Lemma existsb_Zeqb_In (x : Z) (l : list Z) : existsb (Z.eqb x) l = true <-> In x l.
Proof.
  rewrite existsb_exists. split.
  - intros [y [Hy E]]. apply Z.eqb_eq in E. subst. exact Hy.
  - intro H. exists x. split; [exact H | apply Z.eqb_refl].
Qed.

(** /vote: an accepted vote comes from a voter not yet recorded for a
    listed candidate; it appends the voter, adds the voter's political power
    (whatever [int(math.log10(.))] the platform computes) to the vote total,
    keeps the voter list free of duplicates, and any second vote of the same
    voter is refused. *)
Theorem vote_once (int_log10 : Q -> Z) (u : user) (e e' : election) (voter candidate : Z) :
  vote int_log10 u (Some e) voter candidate = Applied e' ->
  ~ In voter (voters e) /\ In candidate (candidates e) /\
  candidates e' = candidates e /\ voters e' = (voters e ++ [voter])%list /\
  total_votes (votes e') = (total_votes (votes e) +
    calculate_political_influence int_log10 (balance u + bank u)
      (calculate_economic_class (balance u + bank u)) 0)%Z /\
  (NoDup (voters e) -> NoDup (voters e')) /\
  forall u2 candidate2, exists msg, vote int_log10 u2 (Some e') voter candidate2 = Rejected msg.
Proof.
  simpl. intro H.
  destruct (existsb (Z.eqb voter) (voters e)) eqn:E1; [discriminate|].
  destruct (existsb (Z.eqb candidate) (candidates e)) eqn:E2; simpl in H; [|discriminate].
  injection H as <-. simpl.
  assert (Hn : ~ In voter (voters e)) by (rewrite <- existsb_Zeqb_In, E1; discriminate).
  split; [exact Hn|]. split; [apply existsb_Zeqb_In; exact E2|].
  split; [reflexivity|]. split; [reflexivity|]. split; [apply inc_vote_total|].
  split.
  - intro Hd. apply NoDup_app; [exact Hd | constructor; [intros []|constructor] |].
    intros x Hx [<-|[]]. contradiction.
  - intros u2 c2.
    assert (E : existsb (Z.eqb voter) (voters e ++ [voter]) = true).
    { apply existsb_Zeqb_In. apply in_or_app. right. left. reflexivity. }
    rewrite E. eexists; reflexivity.
Qed.

Lemma vote_once_witness :
  let lg := fun _ : Q => 2%Z in
  exists e', vote lg (mk_user 100 0) (Some (create_election [7%Z; 8%Z])) 5 7 = Applied e' /\
  (~ In 5%Z (voters (create_election [7%Z; 8%Z])) /\
   In 7%Z (candidates (create_election [7%Z; 8%Z])) /\
   candidates e' = candidates (create_election [7%Z; 8%Z]) /\
   voters e' = (voters (create_election [7%Z; 8%Z]) ++ [5%Z])%list /\
   total_votes (votes e') = (total_votes (votes (create_election [7%Z; 8%Z])) +
     calculate_political_influence lg (balance (mk_user 100 0) + bank (mk_user 100 0))
       (calculate_economic_class (balance (mk_user 100 0) + bank (mk_user 100 0))) 0)%Z /\
   (NoDup (voters (create_election [7%Z; 8%Z])) -> NoDup (voters e')) /\
   forall u2 candidate2, exists msg, vote lg u2 (Some e') 5 candidate2 = Rejected msg).
Proof.
  intro lg.
  eexists. split; [vm_compute; reflexivity|].
  apply (vote_once lg (mk_user 100 0) (create_election [7%Z; 8%Z]) _ 5 7).
  vm_compute. reflexivity.
Defined.

(** /welfare: at total wealth up to 5000 the payment is the welfare amount,
    doubled for the unemployed, credited to cash and taken from the
    government budget; above 5000 the claim is refused. *)
Theorem welfare_payment_rule (u : user) (job : string) (welfare_amount government_budget : Q) :
  let pay := if String.eqb job "unemployed" then welfare_amount * 2 else welfare_amount in
  (balance u + bank u <= 5000 ->
   welfare u job welfare_amount government_budget =
     Applied (mk_user (balance u + pay) (bank u), government_budget - pay)) /\
  (5000 < balance u + bank u ->
   exists msg, welfare u job welfare_amount government_budget = Rejected msg).
Proof.
  intro pay. unfold welfare. split; intro H.
  - rewrite class_lower_upto by lra. simpl.
    assert (E : Qltb WELFARE_THRESHOLD (balance u + bank u) = false) by (apply Qltb_false; exact H).
    rewrite E. reflexivity.
  - destruct (negb (welfare_eligible (CLASS_BENEFITS _))); [eexists; reflexivity|].
    assert (E : Qltb WELFARE_THRESHOLD (balance u + bank u) = true) by (apply Qltb_true; exact H).
    rewrite E. eexists; reflexivity.
Qed.

Lemma insert_by_sharpe_In (x y : string * investment_data) (l : list (string * investment_data)) :
  In y (insert_by_sharpe x l) -> y = x \/ In y l.
Proof.
  induction l as [|z l IH]; simpl; [intros [<-|[]]; left; reflexivity|].
  destruct (Qle_bool (sharpe z) (sharpe x)); simpl.
  - intros [<-|H]; [left; reflexivity | right; exact H].
  - intros [<-|H]; [right; left; reflexivity|].
    destruct (IH H) as [E|E]; [left; exact E | right; right; exact E].
Qed.

Lemma sort_by_sharpe_In (y : string * investment_data) (l : list (string * investment_data)) :
  In y (sort_by_sharpe l) -> In y l.
Proof.
  induction l as [|x l IH]; simpl; [contradiction|].
  intro H. destruct (insert_by_sharpe_In x y _ H) as [E|E]; [left; symmetry; exact E|].
  right. apply IH. exact E.
Qed.

(** The allocation loop only moves funds into allocations: what it allocates
    plus what it keeps is what it was given, each allocation is at most 30%
    of the starting funds, and only types within the risk tolerance get any. *)
Lemma allocate_invariant (risk_tolerance : Q) (l : list (string * investment_data)) :
  forall rf, 0 <= rf ->
  sum_q (map snd (fst (allocate rf risk_tolerance l))) + snd (allocate rf risk_tolerance l) == rf /\
  0 <= snd (allocate rf risk_tolerance l) /\
  Forall (fun kv => 0 <= snd kv <= (3 # 10) * rf /\
            exists d, In (fst kv, d) l /\ risk d <= risk_tolerance)
    (fst (allocate rf risk_tolerance l)).
Proof.
  induction l as [|[k d] l IH]; intros rf Hrf; simpl.
  - split; [ring|]. split; [exact Hrf | constructor].
  - assert (Hw : forall (a : list (string * Q)) (r0 : Q), r0 <= rf ->
              Forall (fun kv => 0 <= snd kv <= (3 # 10) * r0 /\
                        exists d0, In (fst kv, d0) l /\ risk d0 <= risk_tolerance) a ->
              Forall (fun kv => 0 <= snd kv <= (3 # 10) * rf /\
                        exists d0, In (fst kv, d0) ((k, d) :: l) /\ risk d0 <= risk_tolerance) a).
    { intros a r0 Hr0 HF. refine (Forall_impl _ _ HF).
      intros [k' v] [[Hv1 Hv2] [d0 [Hin Hd0]]]. simpl in *.
      split; [split; lra|]. exists d0. split; [right; exact Hin | exact Hd0]. }
    destruct (Qltb rf (min_amount d)).
    + destruct (IH rf Hrf) as [H1 [H2 H3]].
      split; [exact H1|]. split; [exact H2|]. apply (Hw _ rf); [apply Qle_refl | exact H3].
    + assert (Ha : Qmin (rf * (3 # 10)) rf == rf * (3 # 10)) by (apply Q.min_l; lra).
      destruct (Qle_bool (risk d) risk_tolerance) eqn:Er.
      * apply Qle_bool_iff in Er.
        set (a := Qmin (rf * (3 # 10)) rf) in *.
        destruct (Qltb (rf - a) 100); simpl.
        -- split; [ring|]. split; [lra|].
           constructor; [|constructor]. simpl. split; [split; lra|].
           exists d. split; [left; reflexivity | exact Er].
        -- destruct (IH (rf - a) ltac:(lra)) as [H1 [H2 H3]].
           destruct (allocate (rf - a) risk_tolerance l) as [rest rf'] eqn:E. simpl in *.
           split; [simpl; lra|]. split; [exact H2|].
           constructor.
           ++ simpl. split; [split; lra|].
              exists d. split; [left; reflexivity | exact Er].
           ++ apply (Hw _ (rf - a)); [lra | exact H3].
      * destruct (Qltb rf 100); simpl.
        -- split; [ring|]. split; [exact Hrf | constructor].
        -- destruct (IH rf Hrf) as [H1 [H2 H3]].
           destruct (allocate rf risk_tolerance l) as [rest rf'] eqn:E. simpl in *.
           split; [exact H1|]. split; [exact H2|].
           apply (Hw _ rf); [apply Qle_refl | exact H3].
Qed.

(** optimize_portfolio: for non-negative funds the allocations sum to at
    most the funds, each is between 0 and 30% of the funds, and only catalog
    types within the risk tolerance receive one. *)
Theorem optimize_portfolio_within_funds (available_funds risk_tolerance : Q) :
  0 <= available_funds ->
  let allocations := optimize_portfolio available_funds risk_tolerance in
  sum_q (map snd allocations) <= available_funds /\
  Forall (fun kv => 0 <= snd kv <= (3 # 10) * available_funds /\
            exists d, In (fst kv, d) INVESTMENT_TYPES /\ risk d <= risk_tolerance)
    allocations.
Proof.
  intros Hf allocations. unfold allocations, optimize_portfolio.
  destruct (allocate_invariant risk_tolerance (sort_by_sharpe INVESTMENT_TYPES)
              available_funds Hf) as [H1 [H2 H3]].
  split; [lra|].
  refine (Forall_impl _ _ H3).
  intros kv [Hv [d [Hin Hd]]]. split; [exact Hv|].
  exists d. split; [apply sort_by_sharpe_In; exact Hin | exact Hd].
Qed.

Lemma optimize_portfolio_within_funds_witness :
  0 <= 200000 /\
  (let allocations := optimize_portfolio 200000 (1 # 2) in
   sum_q (map snd allocations) <= 200000 /\
   Forall (fun kv => 0 <= snd kv <= (3 # 10) * 200000 /\
             exists d, In (fst kv, d) INVESTMENT_TYPES /\ risk d <= 1 # 2)
     allocations).
Proof.
  split; [discriminate|].
  exact (optimize_portfolio_within_funds 200000 (1 # 2) ltac:(discriminate)).
Defined.










(** At most one successful claim per cooldown window: a claim at a time [t'],
    whatever the user, is refused when the last claim was at [t] and
    [t' - t < cd]. *)
Section Cooldown.
Variable claim : user -> option Z -> Z -> outcome user.
Variable cd : Z.
Hypothesis claim_blocked :
  forall u t t' u', (t' - t < cd)%Z -> claim u (Some t) t' <> Applied u'.

Lemma successful_claims_after (w t : Z) (ts : list Z) (u : user) :
  (w <= t < w + cd)%Z -> Forall (fun t' => w <= t' < w + cd)%Z ts ->
  successful_claims claim u (Some t) ts = O.
Proof.
  intros Ht HF. revert u. induction HF as [|t' ts Ht' _ IH]; intro u; simpl; [reflexivity|].
  destruct (claim u (Some t) t') as [m| |u'] eqn:E; [exact (IH u) | exact (IH u)|].
  exfalso. apply (claim_blocked u t t' u'); [lia | exact E].
Qed.

Lemma successful_claims_window (w : Z) (ts : list Z) : forall (u : user) (last : option Z),
  Forall (fun t' => w <= t' < w + cd)%Z ts ->
  (successful_claims claim u last ts <= 1)%nat.
Proof.
  induction ts as [|t ts IH]; intros u last HF; simpl; [lia|].
  inversion HF as [|? ? Ht HF']; subst.
  destruct (claim u last t) as [m| |u']; [exact (IH u last HF') | exact (IH u last HF')|].
  rewrite (successful_claims_after w t ts u' Ht HF'). lia.
Qed.
End Cooldown.

Lemma daily_blocked (phase : string) (streak_bonus : Z) (u : user) (t t' : Z) (u' : user) :
  (t' - t < COOLDOWN_DAILY)%Z -> daily u (Some t) t' phase streak_bonus <> Applied u'.
Proof. intro H. unfold daily, on_cooldown. apply Z.ltb_lt in H. rewrite H. discriminate. Qed.

Lemma weekly_blocked (u : user) (t t' : Z) (u' : user) :
  (t' - t < COOLDOWN_WEEKLY)%Z -> weekly u (Some t) t' <> Applied u'.
Proof. intro H. unfold weekly, on_cooldown. apply Z.ltb_lt in H. rewrite H. discriminate. Qed.

Lemma monthly_blocked (u : user) (t t' : Z) (u' : user) :
  (t' - t < COOLDOWN_MONTHLY)%Z -> monthly u (Some t) t' <> Applied u'.
Proof. intro H. unfold monthly, on_cooldown. apply Z.ltb_lt in H. rewrite H. discriminate. Qed.

(** /daily, /weekly and /monthly: among claims whose times all lie within
    one cooldown period, at most one succeeds. *)
Theorem claims_once_per_cooldown (u : user) (last : option Z) (ts : list Z) (w : Z) :
  (Forall (fun t => w <= t < w + COOLDOWN_DAILY)%Z ts -> forall phase streak_bonus,
     (successful_claims (fun u l t => daily u l t phase streak_bonus) u last ts <= 1)%nat) /\
  (Forall (fun t => w <= t < w + COOLDOWN_WEEKLY)%Z ts ->
     (successful_claims weekly u last ts <= 1)%nat) /\
  (Forall (fun t => w <= t < w + COOLDOWN_MONTHLY)%Z ts ->
     (successful_claims monthly u last ts <= 1)%nat).
Proof.
  split; [|split]; intros HF.
  - intros phase streak_bonus.
    exact (successful_claims_window _ _ (daily_blocked phase streak_bonus) w ts u last HF).
  - exact (successful_claims_window _ _ weekly_blocked w ts u last HF).
  - exact (successful_claims_window _ _ monthly_blocked w ts u last HF).
Qed.

Lemma lookup_set_market_entry (jm : list (string * job_market_entry)) (j k : string)
    (e : job_market_entry) :
  lookup k (set_market_entry jm j e) = if String.eqb k j then Some e else lookup k jm.
Proof.
  induction jm as [|[k0 e0] r IH]; simpl; [reflexivity|].
  destruct (String.eqb_spec j k0) as [->|Hne]; simpl.
  - destruct (String.eqb k k0); reflexivity.
  - destruct (String.eqb_spec k k0) as [->|Hne'].
    + destruct (String.eqb_spec k0 j); [congruence | reflexivity].
    + exact IH.
Qed.

Lemma employed_count_set_employed (jm : list (string * job_market_entry)) (j k : string) (n : Z) :
  employed_count (set_employed jm j n) k =
  if String.eqb k j then Some n else employed_count jm k.
Proof.
  unfold employed_count. induction jm as [|[k0 e0] r IH]; simpl.
  - destruct (String.eqb k j); reflexivity.
  - destruct (String.eqb_spec j k0) as [->|Hne]; simpl.
    + destruct (String.eqb k k0); reflexivity.
    + destruct (String.eqb_spec k k0) as [->|Hne'].
      * destruct (String.eqb_spec k0 j); [congruence | reflexivity].
      * exact IH.
Qed.

Lemma employed_count_set_market_entry (jm : list (string * job_market_entry)) (j k : string)
    (e : job_market_entry) :
  employed_count (set_market_entry jm j e) k =
  if String.eqb k j then Some (employed e) else employed_count jm k.
Proof.
  unfold employed_count. rewrite lookup_set_market_entry. destruct (String.eqb k j); reflexivity.
Qed.

(** /applyjob when switching jobs: the new job's stored count becomes its
    count plus one (from 0 if absent), the old job's becomes one less floored
    at 0 (an absent old job is stored as 0), and no other job changes. *)
Theorem applyjob_switch_counts (old_job : string) (skill_level : Z)
    (jm jm' : list (string * job_market_entry)) (job job' : string) :
  old_job <> "unemployed" -> old_job <> job ->
  applyjob old_job skill_level jm job = Applied (job', jm') ->
  job' = job /\
  (exists jd, lookup job JOBS = Some jd /\ (skill_required jd <= skill_level)%Z) /\
  employed_count jm' job = Some (count_or 0 jm job + 1)%Z /\
  employed_count jm' old_job = Some (Z.max 0 (count_or 1 jm old_job - 1)) /\
  forall k, k <> job -> k <> old_job -> employed_count jm' k = employed_count jm k.
Proof.
  intros Hu Hne H. unfold applyjob in H.
  destruct (lookup job JOBS) as [jd|] eqn:Ej; [|discriminate].
  destruct (String.eqb job "unemployed"); [discriminate|].
  destruct (Z.ltb skill_level (skill_required jd)) eqn:Es; [discriminate|].
  apply Z.ltb_ge in Es.
  apply String.eqb_neq in Hu. rewrite Hu in H.
  assert (Hoj : String.eqb old_job job = false) by (apply String.eqb_neq; exact Hne).
  assert (Hjo : String.eqb job old_job = false)
    by (apply String.eqb_neq; intro E; apply Hne; symmetry; exact E).
  unfold count_or.
  destruct (lookup job jm) as [ej|] eqn:Ejm; destruct (lookup old_job jm) as [eo|] eqn:Eo;
  repeat progress (rewrite ?lookup_set_market_entry, ?String.eqb_refl, ?Hoj, ?Hjo, ?Ejm, ?Eo in H;
                   cbn beta iota zeta in H);
  injection H as <- <-;
  (split; [reflexivity|]); (split; [exists jd; split; [reflexivity | exact Es]|]);
  rewrite ?employed_count_set_employed, ?employed_count_set_market_entry, ?String.eqb_refl, ?Hoj, ?Hjo;
  cbn [employed].
  all: split; [reflexivity|]. all: split; [reflexivity|].
  all: intros k Hk1 Hk2; apply String.eqb_neq in Hk1; apply String.eqb_neq in Hk2.
  all: rewrite ?employed_count_set_employed, ?employed_count_set_market_entry, ?Hk1, ?Hk2; reflexivity.
Qed.


Lemma applyjob_switch_counts_witness :
  "laborer" <> "unemployed" /\ "laborer" <> "cashier" /\
  exists job' jm', applyjob "laborer" 4 sample_market "cashier" = Applied (job', jm') /\
  (job' = "cashier" /\
   (exists jd, lookup "cashier" JOBS = Some jd /\ (skill_required jd <= 4)%Z) /\
   employed_count jm' "cashier" = Some (count_or 0 sample_market "cashier" + 1)%Z /\
   employed_count jm' "laborer" = Some (Z.max 0 (count_or 1 sample_market "laborer" - 1)) /\
   forall k, k <> "cashier" -> k <> "laborer" -> employed_count jm' k = employed_count sample_market k).
Proof.
  split; [discriminate|]. split; [discriminate|].
  eexists; eexists; split; [vm_compute; reflexivity|].
  apply (applyjob_switch_counts "laborer" 4 sample_market _ "cashier");
    [discriminate | discriminate | vm_compute; reflexivity].
Defined.

(** /applyjob for the job the user already holds raises that job's stored
    count by one and changes no other job. *)
Theorem applyjob_same_job_counts (skill_level : Z)
    (jm jm' : list (string * job_market_entry)) (job job' : string) :
  applyjob job skill_level jm job = Applied (job', jm') ->
  job' = job /\
  employed_count jm' job = Some (count_or 0 jm job + 1)%Z /\
  forall k, k <> job -> employed_count jm' k = employed_count jm k.
Proof.
  intro H. unfold applyjob in H.
  destruct (lookup job JOBS) as [jd|] eqn:Ej; [|discriminate].
  destruct (String.eqb job "unemployed") eqn:Eu; [discriminate|].
  destruct (Z.ltb skill_level (skill_required jd)); [discriminate|].
  unfold count_or.
  destruct (lookup job jm) as [ej|] eqn:Ejm;
  repeat progress (rewrite ?lookup_set_market_entry, ?String.eqb_refl, ?Ejm in H;
                   cbn beta iota zeta in H);
  injection H as <- <-; (split; [reflexivity|]);
  rewrite ?employed_count_set_employed, ?employed_count_set_market_entry, ?String.eqb_refl;
  cbn [employed]; (split; [reflexivity|]);
  intros k Hk; apply String.eqb_neq in Hk;
  rewrite ?employed_count_set_employed, ?employed_count_set_market_entry, ?Hk; reflexivity.
Qed.

Lemma applyjob_same_job_counts_witness :
  exists job' jm', applyjob "cashier" 4 sample_market "cashier" = Applied (job', jm') /\
  (job' = "cashier" /\
   employed_count jm' "cashier" = Some (count_or 0 sample_market "cashier" + 1)%Z /\
   forall k, k <> "cashier" -> employed_count jm' k = employed_count sample_market k).
Proof.
  eexists; eexists; split; [vm_compute; reflexivity|].
  apply (applyjob_same_job_counts 4 sample_market _ "cashier"); vm_compute; reflexivity.
Defined.

Lemma lookup_set_employed_same (jm : list (string * job_market_entry)) (j : string) (n : Z) :
  option_map employed (lookup j (set_employed jm j n)) = Some n.
Proof.
  induction jm as [|[k0 e0] r IH]; simpl; [rewrite String.eqb_refl; reflexivity|].
  destruct (String.eqb_spec j k0) as [->|Hne]; simpl.
  - rewrite String.eqb_refl. reflexivity.
  - apply String.eqb_neq in Hne. rewrite Hne. exact IH.
Qed.

(** /applyjob from unemployment followed by /resign restores every stored
    count (an absent job is left stored with count 0). *)
Theorem applyjob_then_resign (skill_level : Z) (jm jm1 : list (string * job_market_entry))
    (job job' : string) :
  applyjob "unemployed" skill_level jm job = Applied (job', jm1) ->
  exists jm2, resign job' jm1 = Applied ("unemployed", jm2) /\
    employed_count jm2 job = Some (Z.max 0 (count_or 0 jm job)) /\
    forall k, k <> job -> employed_count jm2 k = employed_count jm k.
Proof.
  intro H. unfold applyjob in H.
  destruct (lookup job JOBS) as [jd|] eqn:Ej; [|discriminate].
  destruct (String.eqb job "unemployed") eqn:Eu; [discriminate|].
  destruct (Z.ltb skill_level (skill_required jd)); [discriminate|].
  rewrite String.eqb_refl in H. unfold count_or.
  destruct (lookup job jm) as [ej|] eqn:Ejm;
  repeat progress (rewrite ?lookup_set_market_entry, ?String.eqb_refl, ?Ejm in H;
                   cbn beta iota zeta in H);
  injection H as <- <-; unfold resign; rewrite Eu;
  match goal with |- context [lookup job (set_employed ?m job ?n)] =>
    pose proof (lookup_set_employed_same m job n) as Hl;
    destruct (lookup job (set_employed m job n)) as [e|]; [|discriminate];
    injection Hl as He end;
  eexists; (split; [reflexivity|]);
  rewrite !employed_count_set_employed, String.eqb_refl, He; (split; [f_equal; lia|]);
  intros k Hk; apply String.eqb_neq in Hk;
  rewrite ?employed_count_set_employed, ?employed_count_set_market_entry, ?Hk; reflexivity.
Qed.

Lemma applyjob_then_resign_witness :
  exists job' jm1, applyjob "unemployed" 4 sample_market "waiter" = Applied (job', jm1) /\
  exists jm2, resign job' jm1 = Applied ("unemployed", jm2) /\
    employed_count jm2 "waiter" = Some (Z.max 0 (count_or 0 sample_market "waiter")) /\
    forall k, k <> "waiter" -> employed_count jm2 k = employed_count sample_market k.
Proof.
  eexists; eexists; split; [vm_compute; reflexivity|].
  apply (applyjob_then_resign 4 sample_market _ "waiter"); vm_compute; reflexivity.
Defined.







Lemma base_item_ranges (k : string) (d : item_data) :
  lookup k BASE_ITEMS = Some d -> 0 <= item_base_price d /\ necessity d <= 1.
Proof.
  unfold BASE_ITEMS. simpl.
  repeat match goal with |- context [if String.eqb ?a ?b then _ else _] =>
    destruct (String.eqb a b) end;
  intro E; try discriminate; injection E as <-; simpl; split; discriminate.
Qed.

Lemma item_price_unit_demand (item : string) (d : item_data) (inflation : Q) :
  lookup item BASE_ITEMS = Some d -> -(1 # 2) <= inflation ->
  calculate_item_price item (item_base_price d) inflation 1 == item_base_price d * (1 + inflation).
Proof.
  intros Hd Hi. destruct (base_item_ranges item d Hd) as [Hb Hn].
  unfold calculate_item_price. rewrite Hd.
  set (b := item_base_price d) in *.
  assert (E : b * (1 + inflation) * (1 + (1 - 1) * elasticity d) == b * (1 + inflation)) by ring.
  rewrite E. apply Q.max_l.
  assert (0 <= b * (1 + inflation - necessity d * (1 # 2))) by (apply Qmult_le_0_compat; lra).
  assert (b * (1 + inflation - necessity d * (1 # 2)) == b * (1 + inflation) - b * necessity d * (1 # 2))
    by ring.
  lra.
Qed.

(** The hourly price update: with the inflation of calculate_inflation
    every repriced item is its catalog base price times (1 + inflation),
    between 95% and 120% of the base price, and the items are kept in order. *)
Theorem update_market_prices_follow_inflation (market_prices : list (string * Q))
    (money_supply gdp velocity : Q) (new_prices : list (string * Q)) :
  let inflation := calculate_inflation money_supply gdp velocity in
  update_market_prices market_prices inflation = Some new_prices ->
  map fst new_prices = map fst market_prices /\
  Forall (fun kp => exists d, lookup (fst kp) BASE_ITEMS = Some d /\
            snd kp == item_base_price d * (1 + inflation) /\
            (19 # 20) * item_base_price d <= snd kp <= (6 # 5) * item_base_price d)
    new_prices.
Proof.
  intro inflation.
  assert (Hi : -(5 # 100) <= inflation <= 20 # 100) by exact (proj1 (calculate_inflation_bounded money_supply gdp velocity)).
  revert new_prices.
  induction market_prices as [|[item p] mp IH]; intros np H; cbn [update_market_prices] in H.
  - injection H as <-. split; [reflexivity | constructor].
  - destruct (lookup item BASE_ITEMS) as [d|] eqn:Ed; [|discriminate].
    destruct (update_market_prices mp inflation) as [np'|]; [|discriminate].
    injection H as <-. destruct (IH np' eq_refl) as [H1 H2].
    split; [simpl; f_equal; exact H1|].
    constructor; [|exact H2].
    exists d. simpl. split; [exact Ed|].
    pose proof (item_price_unit_demand item d inflation Ed ltac:(lra)) as Hp.
    destruct (base_item_ranges item d Ed) as [Hb _].
    set (b := item_base_price d) in *.
    assert (0 <= b * (inflation + (1 # 20))) by (apply Qmult_le_0_compat; lra).
    assert (0 <= b * ((1 # 5) - inflation)) by (apply Qmult_le_0_compat; lra).
    assert (b * (1 + inflation) == b + b * inflation) by ring.
    assert (b * (inflation + (1 # 20)) == b * inflation + b * (1 # 20)) by ring.
    assert (b * ((1 # 5) - inflation) == b * (1 # 5) - b * inflation) by ring.
    set (x := calculate_item_price item b inflation 1) in *.
    set (y := b * inflation) in *. clearbody x y.
    split; [exact Hp|]. split; lra.
Qed.

Lemma update_market_prices_follow_inflation_witness :
  exists np, update_market_prices [("bread", 5); ("car", 30000)]
               (calculate_inflation 300000 100000 (3 # 2)) = Some np /\
  (map fst np = map fst [("bread", 5); ("car", 30000)] /\
   Forall (fun kp => exists d, lookup (fst kp) BASE_ITEMS = Some d /\
             snd kp == item_base_price d * (1 + calculate_inflation 300000 100000 (3 # 2)) /\
             (19 # 20) * item_base_price d <= snd kp <= (6 # 5) * item_base_price d) np).
Proof.
  eexists; split; [vm_compute; reflexivity|].
  apply (update_market_prices_follow_inflation [("bread", 5); ("car", 30000)] 300000 100000 (3 # 2)).
  vm_compute; reflexivity.
Defined.

(** The hourly price update raises on a market item missing from the
    catalog, so no price is updated. *)
Lemma update_market_prices_unknown_item (market_prices : list (string * Q)) (inflation : Q)
    (item : string) (p : Q) :
  In (item, p) market_prices -> lookup item BASE_ITEMS = None ->
  update_market_prices market_prices inflation = None.
Proof.
  intros Hin Hn. induction market_prices as [|[k q] mp IH]; cbn [update_market_prices];
    [contradiction|].
  destruct Hin as [E|Hin].
  - injection E as -> ->. rewrite Hn. reflexivity.
  - destruct (lookup k BASE_ITEMS); [|reflexivity]. rewrite (IH Hin). reflexivity.
Qed.

Lemma update_market_prices_unknown_item_witness :
  In ("diamond", 900) [("bread", 5); ("diamond", 900)] /\ lookup "diamond" BASE_ITEMS = None /\
  update_market_prices [("bread", 5); ("diamond", 900)] (1 # 50) = None.
Proof.
  split; [right; left; reflexivity|]. split; [reflexivity|].
  exact (update_market_prices_unknown_item [("bread", 5); ("diamond", 900)] (1 # 50) "diamond" 900
           ltac:(right; left; reflexivity) eq_refl).
Defined.

Lemma add_to_group_lookup (g : list (string * Z)) (k k' : string) :
  lookup k (add_to_group k' g) =
  if String.eqb k k' then Some (match lookup k g with Some n => n + 1 | None => 1 end)%Z
  else lookup k g.
Proof.
  induction g as [|[k0 n] g IH]; simpl.
  - destruct (String.eqb k k'); reflexivity.
  - destruct (String.eqb_spec k' k0) as [->|Hne]; simpl.
    + destruct (String.eqb k k0); reflexivity.
    + destruct (String.eqb_spec k k0) as [->|Hne'].
      * destruct (String.eqb_spec k0 k'); [congruence | reflexivity].
      * exact IH.
Qed.

Lemma add_to_group_total (g : list (string * Z)) (k : string) :
  group_total (add_to_group k g) = (group_total g + 1)%Z.
Proof.
  induction g as [|[k0 n] g IH]; simpl; [reflexivity|].
  destruct (String.eqb k k0); simpl; [|rewrite IH]; unfold group_total in *; simpl; lia.
Qed.

Lemma class_distribution_fold (labels : list string) : forall (g : list (string * Z)) (k : string),
  lookup k (fold_left (fun g k => add_to_group k g) labels g) =
    (match lookup k g with
     | Some n => Some (n + Z.of_nat (count_occ string_dec labels k))
     | None => if existsb (String.eqb k) labels
               then Some (Z.of_nat (count_occ string_dec labels k)) else None
     end)%Z /\
  group_total (fold_left (fun g k => add_to_group k g) labels g) =
    (group_total g + Z.of_nat (length labels))%Z.
Proof.
  induction labels as [|l labels IH]; intros g k; simpl.
  - split; [destruct (lookup k g); [f_equal; lia | reflexivity] | lia].
  - destruct (IH (add_to_group l g) k) as [H1 H2]. split.
    + rewrite H1, add_to_group_lookup.
      destruct (String.eqb_spec k l) as [->|Hne].
      * destruct (string_dec l l) as [_|C]; [|congruence].
        destruct (lookup l g); rewrite ?Nat2Z.inj_succ; cbn beta iota; rewrite ?String.eqb_refl; cbn [orb]; f_equal; lia.
      * destruct (string_dec l k) as [C|_]; [congruence|].
        destruct (lookup k g); reflexivity.
    + rewrite H2, add_to_group_total. lia.
Qed.

(** get_class_distribution: every stored class label is mapped to its
    number of occurrences, absent labels to nothing, and the counts add up to
    the number of users. *)
Theorem get_class_distribution_counts (labels : list string) :
  (forall k, lookup k (get_class_distribution labels) =
     if existsb (String.eqb k) labels
     then Some (Z.of_nat (count_occ string_dec labels k)) else None) /\
  group_total (get_class_distribution labels) = Z.of_nat (length labels).
Proof.
  unfold get_class_distribution. split.
  - intro k. exact (proj1 (class_distribution_fold labels [] k)).
  - exact (proj2 (class_distribution_fold labels [] "")).
Qed.

(** get_unemployment_rate: the rate lies in [0, 1], is 0 for no users and
    1 when every user is unemployed. *)
Theorem get_unemployment_rate_range (jobs : list string) :
  0 <= get_unemployment_rate jobs <= 1 /\
  get_unemployment_rate [] = 0 /\
  (jobs <> [] -> Forall (fun j => j = "unemployed") jobs -> get_unemployment_rate jobs == 1).
Proof.
  unfold get_unemployment_rate.
  assert (Hf : (length (filter (fun j => String.eqb j "unemployed") jobs) <= length jobs)%nat)
    by apply filter_length_le.
  split; [|split; [reflexivity|]].
  - set (u := Z.of_nat (length (filter _ jobs))).
    set (t := Z.of_nat (length jobs)).
    assert (Hu : (0 <= u <= Z.max t 1)%Z) by (unfold u, t; lia).
    assert (Hd : 0 < inject_Z (Z.max t 1)) by (change 0 with (inject_Z 0); rewrite <- Zlt_Qlt; lia).
    split.
    + apply Qle_shift_div_l; [exact Hd|]. rewrite Qmult_0_l.
      change 0 with (inject_Z 0). rewrite <- Zle_Qle. lia.
    + apply Qle_shift_div_r; [exact Hd|]. rewrite Qmult_1_l. rewrite <- Zle_Qle. lia.
  - intros Hne HF.
    assert (E : filter (fun j => String.eqb j "unemployed") jobs = jobs).
    { clear Hf Hne. induction HF as [|j js Hj _ IH]; simpl; [reflexivity|].
      subst. simpl. f_equal. exact IH. }
    rewrite E. destruct jobs as [|j js]; [contradiction|].
    simpl length. rewrite Z.max_l by lia.
    field. intro C. apply Qeq_sym in C. change 0 with (inject_Z 0) in C.
    rewrite inject_Z_injective in C. lia.
Qed.

Lemma first_event_some (draw : nat -> Q) (now : Z) (evs : list (string * econ_event)) :
  forall (i0 : nat) (ev : fired_event), first_event evs draw i0 now = Some ev ->
  exists i, nth_error evs i = Some (ev_name ev, ev_data ev) /\
    draw (i0 + i)%nat < probability (ev_data ev) /\
    start_time ev = now /\
    end_time ev = (now + duration_days (ev_data ev) * SECONDS_PER_DAY)%Z /\
    forall j, (j < i)%nat -> exists n d, nth_error evs j = Some (n, d) /\
      probability d <= draw (i0 + j)%nat.
Proof.
  induction evs as [|[name d] evs IH]; intros i0 ev H; simpl in H; [discriminate|].
  destruct (Qltb (draw i0) (probability d)) eqn:E.
  - injection H as <-. apply Qltb_true in E. exists O. simpl.
    rewrite Nat.add_0_r. split; [reflexivity|]. split; [exact E|].
    split; [reflexivity|]. split; [reflexivity|]. intros j Hj. lia.
  - apply Qltb_false in E. destruct (IH (S i0) ev H) as [i [H1 [H2 [H3 [H4 H5]]]]].
    exists (S i). simpl. split; [exact H1|].
    rewrite Nat.add_succ_r. split; [exact H2|]. split; [exact H3|]. split; [exact H4|].
    intros [|j] Hj.
    + exists name, d. rewrite Nat.add_0_r. split; [reflexivity | exact E].
    + destruct (H5 j ltac:(lia)) as [n [d' [Hn Hd]]]. exists n, d'. split; [exact Hn|].
      rewrite Nat.add_succ_r. exact Hd.
Qed.

Lemma first_event_none (draw : nat -> Q) (now : Z) (evs : list (string * econ_event)) (p : Q) :
  Forall (fun e => probability (snd e) <= p) evs -> (forall i, p <= draw i) ->
  forall i0, first_event evs draw i0 now = None.
Proof.
  intros HF Hd. induction HF as [|[name d] evs Hp _ IH]; intro i0; simpl; [reflexivity|].
  simpl in Hp. specialize (Hd i0).
  assert (E : Qltb (draw i0) (probability d) = false) by (apply Qltb_false; lra).
  rewrite E. apply IH.
Qed.

(** trigger_economic_event: a fired event is the first catalog event whose
    draw fell below its probability, starting now and lasting its duration in
    days; when every draw is at least 0.03 no event fires. *)
Theorem trigger_economic_event_first_draw (draw : nat -> Q) (now : Z) :
  (forall ev, trigger_economic_event draw now = Some ev ->
     exists i, nth_error ECONOMIC_EVENTS i = Some (ev_name ev, ev_data ev) /\
       draw i < probability (ev_data ev) /\
       start_time ev = now /\
       end_time ev = (now + duration_days (ev_data ev) * SECONDS_PER_DAY)%Z /\
       forall j, (j < i)%nat -> exists n d, nth_error ECONOMIC_EVENTS j = Some (n, d) /\
         probability d <= draw j) /\
  ((forall i, 3 # 100 <= draw i) -> trigger_economic_event draw now = None).
Proof.
  split.
  - intros ev H. exact (first_event_some draw now ECONOMIC_EVENTS 0 ev H).
  - intro Hd. apply (first_event_none draw now ECONOMIC_EVENTS (3 # 100)); [|exact Hd].
    repeat constructor; simpl; discriminate.
Qed.
